(** * Highlight Text plugin for Gedit: a shallow embedding

    The development follows [trunk/highlighttext/highlight_text.py].  The two
    classes of the module, [HighlightTextPlugin] and
    [HighlightTextWindowHelper], are Python objects that mutate themselves and
    the objects of the host editor; they are modelled by a store of objects
    and a state-and-exception monad over it.  A Python exception leaves the
    store as it was at the [raise], so a computation returns an outcome
    together with the store it reached. *)

From Stdlib Require Import ZArith Ascii String.
From stdpp Require Import gmap strings list fin_maps pretty.

(** ** References

    Host windows, documents, action groups and helpers are objects with an
    identity.  A reference is a natural number; the store maps references to
    the state of the object. *)

Definition window := nat.
Definition doc_ref := nat.
Definition action_group_ref := nat.
Definition helper_ref := nat.
Definition merge_id := nat.

(** The plugin object "is loaded once by an instance of Gedit": there is one
    plugin reference. *)
Inductive plugin_ref : Set := the_plugin.

(** ** Host objects *)

(** Modelled from the spec: the host's search flag constants
    ([gedit.SEARCH_DONT_SET_FLAGS], [gedit.SEARCH_ENTIRE_WORD],
    [gedit.SEARCH_CASE_SENSITIVE]) are not under src/; they are the bits of a
    flag word, the whole-word bit and the case-sensitive bit being distinct. *)
Definition SEARCH_DONT_SET_FLAGS : Z := Z.shiftl 1 0.
Definition SEARCH_ENTIRE_WORD : Z := Z.shiftl 1 1.
Definition SEARCH_CASE_SENSITIVE : Z := Z.shiftl 1 2.

Definition flag_set (flag flags : Z) : bool := negb (Z.eqb (Z.land flags flag) 0).

(** Modelled from the spec: the host document contract ("query whether a
    selection exists; retrieve selection bounds and the text between them; set
    the search text and search flags").  The document class is the host's. *)
Record Document := {
  doc_buffer : string;          (* the text of the buffer *)
  doc_insert : nat;             (* offset of the insert mark *)
  doc_selection_bound : nat;    (* offset of the selection_bound mark *)
  doc_search_text : string;
  doc_search_flags : Z
}.

Definition doc_get_has_selection (d : Document) : bool :=
  negb (Nat.eqb (doc_insert d) (doc_selection_bound d)).

Definition doc_get_selection_bounds (d : Document) : nat * nat :=
  (Nat.min (doc_insert d) (doc_selection_bound d),
   Nat.max (doc_insert d) (doc_selection_bound d)).

Definition doc_get_text (d : Document) (start_iter end_iter : nat) : string :=
  String.substring start_iter (end_iter - start_iter) (doc_buffer d).

Definition doc_set_search_text (text : string) (flags : Z) (d : Document)
  : Document :=
  {| doc_buffer := doc_buffer d;
     doc_insert := doc_insert d;
     doc_selection_bound := doc_selection_bound d;
     doc_search_text := text;
     doc_search_flags := flags |}.

Definition blank_document : Document :=
  {| doc_buffer := ""; doc_insert := 0; doc_selection_bound := 0;
     doc_search_text := ""; doc_search_flags := 0 |}.

Record View := { view_editable : bool }.

(** An action of a [gtk.ActionGroup]: the tuple
    [(name, stock_id, label, accelerator, tooltip, callback)].  The callback
    is a bound method of a helper; it is kept as the helper's reference. *)
Record Action := {
  act_name : string;
  act_stock_id : option string;
  act_label : string;
  act_accelerator : string;
  act_tooltip : string;
  act_callback : helper_ref
}.

Record ActionGroup := {
  ag_name : string;
  ag_actions : list Action;
  ag_sensitive : bool
}.

(** [gtk.ActionGroup(name)]: no actions, sensitive. *)
Definition new_action_group (name : string) : ActionGroup :=
  {| ag_name := name; ag_actions := []; ag_sensitive := true |}.

Definition ag_add_actions (actions : list Action) (g : ActionGroup)
  : ActionGroup :=
  {| ag_name := ag_name g;
     ag_actions := ag_actions g ++ actions;
     ag_sensitive := ag_sensitive g |}.

Definition ag_set_sensitive (b : bool) (g : ActionGroup) : ActionGroup :=
  {| ag_name := ag_name g;
     ag_actions := ag_actions g;
     ag_sensitive := b |}.

(** The UI definition handed to [add_ui_from_string], as the element tree of
    its XML text. *)
#[local] Unset Elimination Schemes.
Inductive ui_node :=
| Ui (children : list ui_node)
| Menubar (name : string) (children : list ui_node)
| Menu (name action : string) (children : list ui_node)
| Placeholder (name : string) (children : list ui_node)
| Separator
| Menuitem (action : string).
#[local] Set Elimination Schemes.

(** Modelled from the spec: the host UI manager contract ("insert an action
    group of named actions into a window's menu tree at a named placeholder
    path; remove a previously inserted UI fragment and action group by
    identifier; force the UI to refresh").  The manager class is the host's. *)
Record UIManager := {
  mgr_action_groups : list action_group_ref;
  mgr_merged : list (merge_id * ui_node);
  mgr_last_merge_id : merge_id;
  mgr_update_pending : bool
}.

Definition new_ui_manager : UIManager :=
  {| mgr_action_groups := []; mgr_merged := [];
     mgr_last_merge_id := 0; mgr_update_pending := false |}.

(** [manager.insert_action_group(group, pos)]; a negative position (the
    source passes [-1]) appends. *)
Definition mgr_insert_action_group (g : action_group_ref) (pos : Z)
    (m : UIManager) : UIManager :=
  {| mgr_action_groups :=
       if (pos <? 0)%Z then mgr_action_groups m ++ [g]
       else take (Z.to_nat pos) (mgr_action_groups m) ++ g ::
            drop (Z.to_nat pos) (mgr_action_groups m);
     mgr_merged := mgr_merged m;
     mgr_last_merge_id := mgr_last_merge_id m;
     mgr_update_pending := true |}.

(** [manager.add_ui_from_string(ui_str)] returns the new merge id. *)
Definition mgr_add_ui (ui : ui_node) (m : UIManager) : merge_id * UIManager :=
  let id := S (mgr_last_merge_id m) in
  (id,
   {| mgr_action_groups := mgr_action_groups m;
      mgr_merged := mgr_merged m ++ [(id, ui)];
      mgr_last_merge_id := id;
      mgr_update_pending := true |}).

Definition mgr_remove_ui (id : merge_id) (m : UIManager) : UIManager :=
  {| mgr_action_groups := mgr_action_groups m;
     mgr_merged := filter (λ e, e.1 ≠ id) (mgr_merged m);
     mgr_last_merge_id := mgr_last_merge_id m;
     mgr_update_pending := true |}.

Definition mgr_remove_action_group (g : action_group_ref) (m : UIManager)
  : UIManager :=
  {| mgr_action_groups := filter (λ r, r ≠ g) (mgr_action_groups m);
     mgr_merged := mgr_merged m;
     mgr_last_merge_id := mgr_last_merge_id m;
     mgr_update_pending := true |}.

Definition mgr_ensure_update (m : UIManager) : UIManager :=
  {| mgr_action_groups := mgr_action_groups m;
     mgr_merged := mgr_merged m;
     mgr_last_merge_id := mgr_last_merge_id m;
     mgr_update_pending := false |}.

(** A host window: its active document and view ([None] when no tab is open)
    and its UI manager. *)
Record Window := {
  win_active_document : option doc_ref;
  win_active_view : option View;
  win_ui_manager : UIManager
}.

Definition blank_window : Window :=
  {| win_active_document := None; win_active_view := None;
     win_ui_manager := new_ui_manager |}.

Definition win_set_ui_manager (m : UIManager) (w : Window) : Window :=
  {| win_active_document := win_active_document w;
     win_active_view := win_active_view w;
     win_ui_manager := m |}.

(** ** Plugin objects *)

(** The attributes of a [HighlightTextWindowHelper].  An attribute holds
    [None] or an object. *)
Record HighlightTextWindowHelper := {
  _window : option window;
  _plugin : option plugin_ref;
  _ui_id : option merge_id;
  _action_group : option action_group_ref
}.

Definition blank_helper : HighlightTextWindowHelper :=
  {| _window := None; _plugin := None; _ui_id := None;
     _action_group := None |}.

(** ** The store

    [_instances] is the dictionary of the plugin object; the other maps hold
    the state of the objects by reference.  An object is read with its
    default state when the map has no entry for it, so every reference
    denotes an object; allocation takes a reference outside the map. *)
Record Store := {
  windows : gmap window Window;
  documents : gmap doc_ref Document;
  action_groups : gmap action_group_ref ActionGroup;
  helpers : gmap helper_ref HighlightTextWindowHelper;
  _instances : gmap window helper_ref;
  stdout : list string
}.

Definition set_windows (f : gmap window Window → gmap window Window)
    (σ : Store) : Store :=
  {| windows := f (windows σ); documents := documents σ;
     action_groups := action_groups σ; helpers := helpers σ;
     _instances := _instances σ; stdout := stdout σ |}.

Definition set_documents (f : gmap doc_ref Document → gmap doc_ref Document)
    (σ : Store) : Store :=
  {| windows := windows σ; documents := f (documents σ);
     action_groups := action_groups σ; helpers := helpers σ;
     _instances := _instances σ; stdout := stdout σ |}.

Definition set_action_groups
    (f : gmap action_group_ref ActionGroup → gmap action_group_ref ActionGroup)
    (σ : Store) : Store :=
  {| windows := windows σ; documents := documents σ;
     action_groups := f (action_groups σ); helpers := helpers σ;
     _instances := _instances σ; stdout := stdout σ |}.

Definition set_helpers
    (f : gmap helper_ref HighlightTextWindowHelper →
         gmap helper_ref HighlightTextWindowHelper)
    (σ : Store) : Store :=
  {| windows := windows σ; documents := documents σ;
     action_groups := action_groups σ; helpers := f (helpers σ);
     _instances := _instances σ; stdout := stdout σ |}.

Definition set_instances
    (f : gmap window helper_ref → gmap window helper_ref)
    (σ : Store) : Store :=
  {| windows := windows σ; documents := documents σ;
     action_groups := action_groups σ; helpers := helpers σ;
     _instances := f (_instances σ); stdout := stdout σ |}.

Definition set_stdout (f : list string → list string) (σ : Store) : Store :=
  {| windows := windows σ; documents := documents σ;
     action_groups := action_groups σ; helpers := helpers σ;
     _instances := _instances σ; stdout := f (stdout σ) |}.

Definition window_of (σ : Store) (w : window) : Window :=
  default blank_window (windows σ !! w).
Definition document_of (σ : Store) (d : doc_ref) : Document :=
  default blank_document (documents σ !! d).
Definition action_group_of (σ : Store) (g : action_group_ref) : ActionGroup :=
  default (new_action_group "") (action_groups σ !! g).
Definition helper_of (σ : Store) (h : helper_ref) : HighlightTextWindowHelper :=
  default blank_helper (helpers σ !! h).

(** ** The monad of Python computations *)

Inductive exn := KeyError | AttributeError | TypeError.

Inductive outcome (A : Type) :=
| Ok (a : A)
| Raise (e : exn).
Arguments Ok {A} a.
Arguments Raise {A} e.

Definition M (A : Type) : Type := Store → outcome A * Store.

Definition ret {A} (a : A) : M A := λ σ, (Ok a, σ).
Definition raise {A} (e : exn) : M A := λ σ, (Raise e, σ).
Definition bind {A B} (c : M A) (k : A → M B) : M B :=
  λ σ, match c σ with
       | (Ok a, σ') => k a σ'
       | (Raise e, σ') => (Raise e, σ')
       end.
Definition gets {A} (f : Store → A) : M A := λ σ, (Ok (f σ), σ).
Definition modify (f : Store → Store) : M unit := λ σ, (Ok tt, f σ).

#[global] Instance M_ret : MRet M := @ret.
#[global] Instance M_bind : MBind M := λ A B k c, bind c k.

(** Dereferencing an attribute that holds [None] raises [AttributeError]. *)
Definition deref {A} (o : option A) : M A :=
  match o with
  | Some a => ret a
  | None => raise AttributeError
  end.

(** A [None] where the host binding expects a value raises [TypeError]. *)
Definition expect {A} (o : option A) : M A :=
  match o with
  | Some a => ret a
  | None => raise TypeError
  end.

(** ** Logging

    [HighlightTextPlugin.__init__] sets the logger of the plugin to level
    [WARNING] with a handler that prints ["%(levelname)s - %(message)s"] on
    standard output; nothing changes that configuration afterwards. *)

Inductive level := DEBUG | INFO | WARNING | ERROR | CRITICAL.

Definition level_no (l : level) : nat :=
  match l with
  | DEBUG => 10 | INFO => 20 | WARNING => 30 | ERROR => 40 | CRITICAL => 50
  end.

Definition level_name (l : level) : string :=
  match l with
  | DEBUG => "DEBUG" | INFO => "INFO" | WARNING => "WARNING"
  | ERROR => "ERROR" | CRITICAL => "CRITICAL"
  end.

Definition logger_level : level := WARNING.

Definition log_format (l : level) (message : string) : string :=
  level_name l +:+ " - " +:+ message.

(** [self.logger.debug], [self.logger.info], ...: the record is handled when
    its level reaches the logger's. *)
Definition logger_log (l : level) (message : string) : M unit :=
  if decide (level_no logger_level ≤ level_no l)
  then modify (set_stdout (λ out, out ++ [log_format l message]))
  else ret tt.

(** The frame of the function that called [log], as [_whoami] reads it. *)
Record frame := {
  f_lineno : nat;
  f_class : string;
  co_name : string
}.

Definition _whoami (fr : frame) : string :=
  "highlight_text.py Line " +:+ pretty (f_lineno fr) +:+ " " +:+
  f_class fr +:+ "." +:+ co_name fr.

(** The dictionary of [log], from level names to logger methods. *)
Definition logger_of_name (name : string) : option level :=
  if String.eqb name "debug" then Some DEBUG
  else if String.eqb name "info" then Some INFO
  else if String.eqb name "warning" then Some WARNING
  else if String.eqb name "error" then Some ERROR
  else if String.eqb name "critical" then Some CRITICAL
  else None.

(** [HighlightTextPlugin.log(message=None, level='info')]; an empty message
    is false as [None] is. *)
Definition log (fr : frame) (message : option string) (level : string)
  : M unit :=
  match message with
  | Some (String c s) =>
      match logger_of_name level with
      | Some l => logger_log l (String c s)
      | None => raise KeyError
      end
  | _ => logger_log DEBUG (_whoami fr)
  end.

(** ['%s' % window] *)
Definition str_window (w : option window) : string :=
  match w with
  | Some n => "<gedit.Window object " +:+ pretty n +:+ ">"
  | None => "None"
  end.

(** [s.ljust(width, fill)] *)
Definition ljust (width : nat) (fill : Ascii.ascii) (s : string) : string :=
  s +:+ String.string_of_list_ascii (replicate (width - String.length s) fill).

(** ** Host calls *)

Definition get_active_document (w : window) : M (option doc_ref) :=
  gets (λ σ, win_active_document (window_of σ w)).

Definition get_active_view (w : window) : M (option View) :=
  gets (λ σ, win_active_view (window_of σ w)).

(** The UI manager of a window is part of the window; [get_ui_manager]
    returns the window's reference as the manager's. *)
Definition get_ui_manager (w : window) : M window := ret w.

Definition manager_call (manager : window) (f : UIManager → UIManager)
  : M unit :=
  modify (λ σ,
    let w := window_of σ manager in
    set_windows <[manager := win_set_ui_manager (f (win_ui_manager w)) w]> σ).

Definition add_ui_from_string (manager : window) (ui : ui_node)
  : M merge_id :=
  id ← gets (λ σ, (mgr_add_ui ui (win_ui_manager (window_of σ manager))).1);
  manager_call manager (λ m, (mgr_add_ui ui m).2);;
  ret id.

(** [gtk.ActionGroup(name)] allocates a new action group. *)
Definition gtk_ActionGroup (name : string) : M action_group_ref :=
  g ← gets (λ σ, fresh (dom (action_groups σ)));
  modify (set_action_groups <[g := new_action_group name]>);;
  ret g.

Definition action_group_call (g : action_group_ref)
    (f : ActionGroup → ActionGroup) : M unit :=
  modify (λ σ, set_action_groups <[g := f (action_group_of σ g)]> σ).

Definition document_call (d : doc_ref) (f : Document → Document) : M unit :=
  modify (λ σ, set_documents <[d := f (document_of σ d)]> σ).

(** ** HighlightTextWindowHelper *)

Module Helper.

Definition getattr {A} (f : HighlightTextWindowHelper → A) (self : helper_ref)
  : M A :=
  gets (λ σ, f (helper_of σ self)).

Definition setattr (self : helper_ref)
    (f : HighlightTextWindowHelper → HighlightTextWindowHelper) : M unit :=
  modify (λ σ, set_helpers <[self := f (helper_of σ self)]> σ).

Definition with_window (v : option window) (h : HighlightTextWindowHelper) :=
  {| _window := v; _plugin := _plugin h; _ui_id := _ui_id h;
     _action_group := _action_group h |}.
Definition with_plugin (v : option plugin_ref) (h : HighlightTextWindowHelper) :=
  {| _window := _window h; _plugin := v; _ui_id := _ui_id h;
     _action_group := _action_group h |}.
Definition with_ui_id (v : option merge_id) (h : HighlightTextWindowHelper) :=
  {| _window := _window h; _plugin := _plugin h; _ui_id := v;
     _action_group := _action_group h |}.
Definition with_action_group (v : option action_group_ref)
    (h : HighlightTextWindowHelper) :=
  {| _window := _window h; _plugin := _plugin h; _ui_id := _ui_id h;
     _action_group := v |}.

(** [self._plugin.log(...)] from line [line] of method [name]. *)
Definition plugin_log (self : helper_ref) (line : nat) (name : string)
    (message : option string) : M unit :=
  _ ← getattr _plugin self ≫= deref;
  log {| f_lineno := line; f_class := "HighlightTextWindowHelper";
         co_name := name |} message "info".

Definition ui_str : ui_node :=
  Ui [Menubar "MenuBar"
       [Menu "SearchMenu" "Search"
         [Placeholder "SearchOps_1"
           [Placeholder "HighlightText"
             [Separator; Menuitem "HighlightText"]]]]].

Definition update_ui (self : helper_ref) (window : window) : M unit :=
  plugin_log self 213 "update_ui" None;;
  w ← getattr _window self ≫= deref;
  doc ← get_active_document w;
  w ← getattr _window self ≫= deref;
  current_view ← get_active_view w;
  match doc, current_view with
  | Some _, Some v =>
      if view_editable v then
        g ← getattr _action_group self ≫= deref;
        action_group_call g (ag_set_sensitive true)
      else ret tt
  | _, _ => ret tt
  end.

Definition _insert_menu (self : helper_ref) : M unit :=
  plugin_log self 157 "_insert_menu" None;;
  w ← getattr _window self ≫= deref;
  manager ← get_ui_manager w;
  let name : string := "HighlightText" in
  let stock_id : option string := None in
  let label : string := "Highlight Text" in
  let accelerator : string := "<Shift><Control>f" in
  let tooltip : string :=
    "Highlight all occurances of the text currently selected." in
  let callback := self in
  let actions :=
    [ {| act_name := name; act_stock_id := stock_id; act_label := label;
         act_accelerator := accelerator; act_tooltip := tooltip;
         act_callback := callback |} ] in
  g ← gtk_ActionGroup "HighlightTextPluginActions";
  setattr self (with_action_group (Some g));;
  g ← getattr _action_group self ≫= deref;
  action_group_call g (ag_add_actions actions);;
  g ← getattr _action_group self ≫= expect;
  manager_call manager (mgr_insert_action_group g (-1));;
  id ← add_ui_from_string manager ui_str;
  setattr self (with_ui_id (Some id));;
  w ← getattr _window self;
  plugin_log self 191 "_insert_menu" (Some ("Menu added for " +:+ str_window w)).

Definition _remove_menu (self : helper_ref) : M unit :=
  plugin_log self 195 "_remove_menu" None;;
  w ← getattr _window self ≫= deref;
  manager ← get_ui_manager w;
  id ← getattr _ui_id self ≫= expect;
  manager_call manager (mgr_remove_ui id);;
  g ← getattr _action_group self ≫= expect;
  manager_call manager (mgr_remove_action_group g);;
  manager_call manager mgr_ensure_update;;
  w ← getattr _window self;
  plugin_log self 200 "_remove_menu"
    (Some ("Menu removed for " +:+ str_window w)).

(** [HighlightTextWindowHelper(plugin, window)]: a new object, then
    [__init__]. *)
Definition __init__ (self : helper_ref) (plugin : plugin_ref) (window : window)
  : M unit :=
  setattr self (with_window (Some window));;
  setattr self (with_plugin (Some plugin));;
  plugin_log self 142 "__init__" None;;
  w ← getattr _window self;
  plugin_log self 143 "__init__" (Some ("Started for " +:+ str_window w));;
  setattr self (with_ui_id None);;
  setattr self (with_action_group None);;
  _insert_menu self;;
  w ← getattr _window self ≫= deref;
  update_ui self w.

Definition new (plugin : plugin_ref) (window : window) : M helper_ref :=
  self ← gets (λ σ, fresh (dom (helpers σ)));
  modify (set_helpers <[self := blank_helper]>);;
  __init__ self plugin window;;
  ret self.

Definition deactivate (self : helper_ref) : M unit :=
  plugin_log self 204 "deactivate" None;;
  w ← getattr _window self;
  plugin_log self 205 "deactivate" (Some ("Stopping for " +:+ str_window w));;
  _remove_menu self;;
  setattr self (with_action_group None);;
  setattr self (with_plugin None);;
  setattr self (with_window None).

Definition _get_text_selection (self : helper_ref) : M string :=
  plugin_log self 233 "_get_text_selection" None;;
  w ← getattr _window self ≫= deref;
  doc ← get_active_document w;
  d ← deref doc;
  has_selection ← gets (λ σ, doc_get_has_selection (document_of σ d));
  if (has_selection : bool) then
    '(start_iter, end_iter) ←
       gets (λ σ, doc_get_selection_bounds (document_of σ d));
    gets (λ σ, doc_get_text (document_of σ d) start_iter end_iter)
  else ret "".

Definition _highlight_selection (self : helper_ref) (action : Action)
  : M unit :=
  plugin_log self 223 "_highlight_selection" None;;
  w ← getattr _window self ≫= deref;
  doc ← get_active_document w;
  text ← _get_text_selection self;
  let flags := SEARCH_CASE_SENSITIVE in
  d ← deref doc;
  document_call d (doc_set_search_text text flags).

End Helper.

(** ** HighlightTextPlugin *)

Module Plugin.

(** [self.log(...)] from line [line] of method [name]. *)
Definition self_log (line : nat) (name : string) (message : option string)
  : M unit :=
  log {| f_lineno := line; f_class := "HighlightTextPlugin";
         co_name := name |} message "info".

Definition __init__ : M unit :=
  self_log 71 "__init__"
    (Some (ljust 72 "-"%char "Highlight Text logging started. "));;
  self_log 72 "__init__" None;;
  modify (set_instances (λ _, ∅)).

Definition activate (window : window) : M unit :=
  self_log 79 "activate" None;;
  h ← Helper.new the_plugin window;
  modify (set_instances <[window := h]>).

(** [self._instances[window]] *)
Definition instances_get (window : window) : M helper_ref :=
  o ← gets (λ σ, _instances σ !! window);
  match o with
  | Some h => ret h
  | None => raise KeyError
  end.

(** [del self._instances[window]] *)
Definition instances_del (window : window) : M unit :=
  o ← gets (λ σ, _instances σ !! window);
  match o with
  | Some _ => modify (set_instances (delete window))
  | None => raise KeyError
  end.

Definition deactivate (window : window) : M unit :=
  self_log 84 "deactivate" None;;
  h ← instances_get window;
  Helper.deactivate h;;
  instances_del window.

Definition update_ui (window : window) : M unit :=
  self_log 90 "update_ui" None;;
  h ← instances_get window;
  Helper.update_ui h window.

Definition is_configurable : M bool :=
  self_log 95 "is_configurable" None;;
  ret false.

End Plugin.

(** ** Notions of the specification *)

(** The window "has both an active document and an active, editable view". *)
Definition has_editable_document (W : Window) : bool :=
  match win_active_document W, win_active_view W with
  | Some _, Some v => view_editable v
  | _, _ => false
  end.

(** The text between the selection bounds of a document. *)
Definition doc_selected_text (d : Document) : string :=
  doc_get_text d (doc_get_selection_bounds d).1 (doc_get_selection_bounds d).2.

(** The host's calls on the plugin root, in the order they are made.  The run
    stops at the first call that raises. *)
Inductive call :=
| Activate (w : window)
| Deactivate (w : window).

Definition run_call (c : call) : M unit :=
  match c with
  | Activate w => Plugin.activate w
  | Deactivate w => Plugin.deactivate w
  end.

Fixpoint run_calls (cs : list call) : M unit :=
  match cs with
  | [] => mret tt
  | c :: cs => run_call c;; run_calls cs
  end.

(** The windows that have been activated and not since deactivated. *)
Fixpoint activated (cs : list call) (ws : gset window) : gset window :=
  match cs with
  | [] => ws
  | Activate w :: cs => activated cs ({[w]} ∪ ws)
  | Deactivate w :: cs => activated cs (ws ∖ {[w]})
  end.

(** Each activate uses a window not currently activated, each deactivate a
    currently activated one. *)
Fixpoint well_paired (cs : list call) (ws : gset window) : bool :=
  match cs with
  | [] => true
  | Activate w :: cs =>
      bool_decide (w ∉ ws) && well_paired cs ({[w]} ∪ ws)
  | Deactivate w :: cs =>
      bool_decide (w ∈ ws) && well_paired cs (ws ∖ {[w]})
  end.

(** ** The stores that the constructor of a helper reaches *)

Definition live_helper (w : window) (p : plugin_ref) (u : merge_id)
    (g : action_group_ref) : HighlightTextWindowHelper :=
  {| _window := Some w; _plugin := Some p; _ui_id := Some u;
     _action_group := Some g |}.

(** The action that [_insert_menu] puts in its action group. *)
Definition menu_action (self : helper_ref) : Action :=
  {| act_name := "HighlightText"; act_stock_id := None;
     act_label := "Highlight Text"; act_accelerator := "<Shift><Control>f";
     act_tooltip := "Highlight all occurances of the text currently selected.";
     act_callback := self |}.

(** The store after [_insert_menu]: a new action group with the action, the
    group and the UI definition merged in the window's manager, and both kept
    in the helper. *)
Definition menu_inserted (self : helper_ref) (p : plugin_ref) (w : window)
    (σ : Store) : Store :=
  let g := fresh (dom (action_groups σ)) in
  let m :=
    mgr_add_ui Helper.ui_str
      (mgr_insert_action_group g (-1) (win_ui_manager (window_of σ w))) in
  set_helpers <[self := live_helper w p m.1 g]>
    (set_windows <[w := win_set_ui_manager m.2 (window_of σ w)]>
       (set_action_groups
          <[g := ag_add_actions [menu_action self]
                   (new_action_group "HighlightTextPluginActions")]> σ)).

(** The store after [__init__]: the menu inserted, and the action group made
    sensitive by [update_ui] when the window has an editable document. *)
Definition constructed (self : helper_ref) (p : plugin_ref) (w : window)
    (σ : Store) : Store :=
  let g := fresh (dom (action_groups σ)) in
  let σ1 := menu_inserted self p w σ in
  if has_editable_document (window_of σ w)
  then set_action_groups
         <[g := ag_set_sensitive true (action_group_of σ1 g)]> σ1
  else σ1.

(** ** Invariants *)

(** A computation that leaves the dictionary of the plugin as it is, whatever
    its outcome. *)
Definition keeps_instances {A} (c : M A) : Prop :=
  ∀ σ, _instances (c σ).2 = _instances σ.

(** Every helper in the dictionary is an object of the store that holds its
    key as its window, with its menu references in place. *)
Definition helpers_consistent (σ : Store) : Prop :=
  ∀ w h, _instances σ !! w = Some h →
    h ∈ dom (helpers σ) ∧
    ∃ u g, helper_of σ h = live_helper w the_plugin u g.

(** The store before the host loads the plugin. *)
Definition empty_store : Store :=
  {| windows := ∅; documents := ∅; action_groups := ∅; helpers := ∅;
     _instances := ∅; stdout := [] |}.

(** ** Example stores *)

(** A host with one window, 5, whose active document, 7, holds the text
    [a foo b] with the insert mark at offset [ins] and the selection bound at
    offset 5, shown in an editable view. *)
Definition example_host (ins : nat) : Store :=
  {| windows :=
       {[ 5 := {| win_active_document := Some 7;
                  win_active_view := Some {| view_editable := true |};
                  win_ui_manager := new_ui_manager |} ]};
     documents :=
       {[ 7 := {| doc_buffer := "a foo b"; doc_insert := ins;
                  doc_selection_bound := 5; doc_search_text := "";
                  doc_search_flags := 0 |} ]};
     action_groups := ∅; helpers := ∅; _instances := ∅; stdout := [] |}.

(** The plugin activated for window 5 of that host; the helper is object 0. *)
Definition example_store (ins : nat) : Store :=
  (Plugin.activate 5 (example_host ins)).2.

(** The plugin activated for a window, 5, that has no document. *)
Definition example_store_no_document : Store :=
  (Plugin.activate 5 empty_store).2.

(** The helper of window 5 deactivated behind the plugin's back: its entry is
    still in the dictionary. *)
Definition example_store_released : Store :=
  (Helper.deactivate 0 example_store_no_document).2.

(** ** Further notions *)

(** A computation that leaves the component [proj] of the store as it is,
    whatever its outcome. *)
Definition preserves {A X} (proj : Store → X) (c : M A) : Prop :=
  ∀ σ, proj (c σ).2 = proj σ.

(** What the host does between the loading of the plugin and its end: it
    calls the plugin root, and in between it changes its own windows and
    documents (tabs are opened and closed, text is selected and edited). *)
Inductive event :=
| Call (c : call)
| UpdateUi (w : window)
| HostChange (ws : gmap window Window) (ds : gmap doc_ref Document).

Definition run_event (e : event) : M unit :=
  match e with
  | Call c => run_call c
  | UpdateUi w => Plugin.update_ui w
  | HostChange ws ds =>
      modify (λ σ, set_documents (λ _, ds) (set_windows (λ _, ws) σ))
  end.

Fixpoint run_events (es : list event) : M unit :=
  match es with
  | [] => mret tt
  | e :: es => run_event e;; run_events es
  end.

(** The windows activated and not since deactivated, over events. *)
Fixpoint events_activated (es : list event) (ws : gset window) : gset window :=
  match es with
  | [] => ws
  | Call (Activate w) :: es => events_activated es ({[w]} ∪ ws)
  | Call (Deactivate w) :: es => events_activated es (ws ∖ {[w]})
  | _ :: es => events_activated es ws
  end.

(** The host keeps to the plugin contract: it activates a window that is not
    activated, and deactivates or updates one that is. *)
Fixpoint events_well_paired (es : list event) (ws : gset window) : bool :=
  match es with
  | [] => true
  | Call (Activate w) :: es =>
      bool_decide (w ∉ ws) && events_well_paired es ({[w]} ∪ ws)
  | Call (Deactivate w) :: es =>
      bool_decide (w ∈ ws) && events_well_paired es (ws ∖ {[w]})
  | UpdateUi w :: es =>
      bool_decide (w ∈ ws) && events_well_paired es ws
  | HostChange _ _ :: es => events_well_paired es ws
  end.

(** The UI manager of a window refers to action groups of the store only,
    and has handed out every merge id it holds. *)
Definition manager_well_formed (σ : Store) (w : window) : Prop :=
  (∀ g, g ∈ mgr_action_groups (win_ui_manager (window_of σ w)) →
        g ∈ dom (action_groups σ)) ∧
  (∀ e, e ∈ mgr_merged (win_ui_manager (window_of σ w)) →
        e.1 ≤ mgr_last_merge_id (win_ui_manager (window_of σ w))).

(** * Properties *)

Arguments window_of : simpl never.
Arguments document_of : simpl never.
Arguments action_group_of : simpl never.
Arguments helper_of : simpl never.

(** ** Running computations *)

Section Running.
Context {A B : Type}.

Lemma run_bind_ok (c : M A) (k : A → M B) σ a σ1 :
  c σ = (Ok a, σ1) → (c ≫= k) σ = k a σ1.
Proof. intros H. unfold mbind, M_bind, bind. by rewrite H. Qed.

Lemma run_bind_raise (c : M A) (k : A → M B) σ e σ1 :
  c σ = (Raise e, σ1) → (c ≫= k) σ = (Raise e, σ1).
Proof. intros H. unfold mbind, M_bind, bind. by rewrite H. Qed.

Lemma run_bind_inv (c : M A) (k : A → M B) σ r σ2 :
  (c ≫= k) σ = (r, σ2) →
  (∃ a σ1, c σ = (Ok a, σ1) ∧ k a σ1 = (r, σ2)) ∨
  (∃ e, c σ = (Raise e, σ2) ∧ r = Raise e).
Proof.
  unfold mbind, M_bind, bind. destruct (c σ) as [[a|e] σ1]; intros H.
  - left; eauto.
  - right. exists e. by inversion H.
Qed.
End Running.

(** Every call of [log] in the module is at level ['info'] or, without a
    message, at level debug: below the logger's level, so nothing is
    printed and nothing fails. *)
Lemma log_info_silent fr message σ : log fr message "info" σ = (Ok tt, σ).
Proof. by destruct message as [[|c s]|]. Qed.

Lemma self_log_silent line name message σ :
  Plugin.self_log line name message σ = (Ok tt, σ).
Proof. apply log_info_silent. Qed.

Lemma plugin_log_live self line name message σ p :
  _plugin (helper_of σ self) = Some p →
  Helper.plugin_log self line name message σ = (Ok tt, σ).
Proof.
  intros H. unfold Helper.plugin_log, Helper.getattr, gets.
  unfold mbind, M_bind, bind. rewrite H. simpl. apply log_info_silent.
Qed.

Lemma plugin_log_released self line name message σ :
  _plugin (helper_of σ self) = None →
  Helper.plugin_log self line name message σ = (Raise AttributeError, σ).
Proof.
  intros H. unfold Helper.plugin_log, Helper.getattr, gets.
  unfold mbind, M_bind, bind. by rewrite H.
Qed.

(** Reading the store after a write. *)
Lemma helper_of_set_helpers_eq σ self h :
  helper_of (set_helpers <[self := h]> σ) self = h.
Proof. unfold helper_of. simpl. by rewrite lookup_insert_eq. Qed.

Lemma helper_of_set_helpers_ne σ self self' h :
  self ≠ self' →
  helper_of (set_helpers <[self := h]> σ) self' = helper_of σ self'.
Proof. intros. unfold helper_of. simpl. by rewrite lookup_insert_ne. Qed.

Lemma window_of_set_windows_eq σ w W :
  window_of (set_windows <[w := W]> σ) w = W.
Proof. unfold window_of. simpl. by rewrite lookup_insert_eq. Qed.

Lemma document_of_set_documents_eq σ d D :
  document_of (set_documents <[d := D]> σ) d = D.
Proof. unfold document_of. simpl. by rewrite lookup_insert_eq. Qed.

Lemma action_group_of_set_eq σ g G :
  action_group_of (set_action_groups <[g := G]> σ) g = G.
Proof. unfold action_group_of. simpl. by rewrite lookup_insert_eq. Qed.

Lemma action_group_of_set_ne σ g g' G :
  g ≠ g' →
  action_group_of (set_action_groups <[g := G]> σ) g' = action_group_of σ g'.
Proof. intros. unfold action_group_of. simpl. by rewrite lookup_insert_ne. Qed.

(** ** is_configurable *)

(** C8: [is_configurable] returns [False] in every state of the plugin, and
    leaves the state as it is. *)
Theorem is_configurable_false σ : Plugin.is_configurable σ = (Ok false, σ).
Proof.
  unfold Plugin.is_configurable.
  by rewrite (run_bind_ok _ _ _ _ _ (self_log_silent _ _ _ _)).
Qed.

(** ** update_ui *)

(** C10: the helper's [update_ui] does not read its [window] argument: two
    calls on the same helper in the same state with any two windows have the
    same outcome and reach the same state. *)
Theorem helper_update_ui_ignores_argument self (window1 window2 : window) σ :
  Helper.update_ui self window1 σ = Helper.update_ui self window2 σ.
Proof. reflexivity. Qed.

Ltac py_unfold :=
  unfold Plugin.deactivate, Plugin.update_ui, Plugin.activate,
    Plugin.instances_get, Plugin.instances_del, Plugin.self_log,
    Helper._highlight_selection, Helper._get_text_selection,
    Helper.update_ui, Helper.deactivate, Helper._remove_menu,
    Helper.plugin_log, Helper.getattr, Helper.setattr,
    get_active_document, get_active_view, get_ui_manager, manager_call,
    action_group_call, document_call, deref, expect, gets, modify, raise,
    mbind, M_bind, bind, mret, M_ret, ret.

Ltac py_run :=
  py_unfold;
  repeat (cbn beta iota delta [fst snd];
          rewrite ?log_info_silent, ?helper_of_set_helpers_eq,
            ?window_of_set_windows_eq;
          match goal with
          | H : ?f (helper_of ?σ ?s) = _ |- context [?f (helper_of ?σ ?s)] =>
              rewrite H
          | H : helper_of ?σ ?s = _ |- context [helper_of ?σ ?s] =>
              rewrite H
          | H : ?f (window_of ?σ ?w) = _ |- context [?f (window_of ?σ ?w)] =>
              rewrite H
          | H : ?f (document_of ?σ ?d) = _
            |- context [?f (document_of ?σ ?d)] => rewrite H
          | H : _instances ?σ !! ?w = _ |- context [_instances ?σ !! ?w] =>
              rewrite H
          end).

(** ** highlight_selection *)

Lemma highlight_selection_run σ self action p w d :
  _plugin (helper_of σ self) = Some p →
  _window (helper_of σ self) = Some w →
  win_active_document (window_of σ w) = Some d →
  Helper._highlight_selection self action σ =
    (Ok tt,
     set_documents
       <[d := doc_set_search_text
                (if doc_get_has_selection (document_of σ d)
                 then doc_get_text (document_of σ d)
                        (doc_get_selection_bounds (document_of σ d)).1
                        (doc_get_selection_bounds (document_of σ d)).2
                 else "")
                SEARCH_CASE_SENSITIVE (document_of σ d)]> σ).
Proof.
  intros Hp Hw Hd. py_run.
  destruct (doc_get_has_selection (document_of σ d)); reflexivity.
Qed.

(** C1: when the selection of the active document is the text "foo",
    [_highlight_selection] returns and the document's search text is "foo",
    its case-sensitive flag is set and its whole-word flag is not. *)
Theorem highlight_selection_foo σ self action p w d :
  _plugin (helper_of σ self) = Some p →
  _window (helper_of σ self) = Some w →
  win_active_document (window_of σ w) = Some d →
  doc_get_has_selection (document_of σ d) = true →
  doc_selected_text (document_of σ d) = "foo" →
  ∃ σ', Helper._highlight_selection self action σ = (Ok tt, σ') ∧
        doc_search_text (document_of σ' d) = "foo" ∧
        flag_set SEARCH_CASE_SENSITIVE (doc_search_flags (document_of σ' d))
          = true ∧
        flag_set SEARCH_ENTIRE_WORD (doc_search_flags (document_of σ' d))
          = false.
Proof.
  intros Hp Hw Hd Hsel Htext. eexists. split.
  - by eapply highlight_selection_run.
  - rewrite document_of_set_documents_eq, Hsel.
    fold (doc_selected_text (document_of σ d)). by rewrite Htext.
Qed.

(** C2: when the active document has no selection, [_highlight_selection]
    returns and the document's search text is the empty string, with the
    case-sensitive flag set and the whole-word flag not set. *)
Theorem highlight_selection_none σ self action p w d :
  _plugin (helper_of σ self) = Some p →
  _window (helper_of σ self) = Some w →
  win_active_document (window_of σ w) = Some d →
  doc_get_has_selection (document_of σ d) = false →
  ∃ σ', Helper._highlight_selection self action σ = (Ok tt, σ') ∧
        doc_search_text (document_of σ' d) = "" ∧
        flag_set SEARCH_CASE_SENSITIVE (doc_search_flags (document_of σ' d))
          = true ∧
        flag_set SEARCH_ENTIRE_WORD (doc_search_flags (document_of σ' d))
          = false.
Proof.
  intros Hp Hw Hd Hsel. eexists. split.
  - by eapply highlight_selection_run.
  - by rewrite document_of_set_documents_eq, Hsel.
Qed.

(** C7: with no active document, [_highlight_selection] raises where the
    document is dereferenced, in [_get_text_selection], which it calls before
    any search text is set: the store is left as it was. *)
Theorem highlight_selection_no_document σ self action p w :
  _plugin (helper_of σ self) = Some p →
  _window (helper_of σ self) = Some w →
  win_active_document (window_of σ w) = None →
  Helper._get_text_selection self σ = (Raise AttributeError, σ) ∧
  Helper._highlight_selection self action σ = (Raise AttributeError, σ).
Proof. intros Hp Hw Hd. split; by py_run. Qed.

(** ** update_ui, continued *)

Lemma helper_update_ui_run σ self window p w :
  _plugin (helper_of σ self) = Some p →
  _window (helper_of σ self) = Some w →
  Helper.update_ui self window σ =
    if has_editable_document (window_of σ w) then
      match _action_group (helper_of σ self) with
      | Some g =>
          (Ok tt,
           set_action_groups
             <[g := ag_set_sensitive true (action_group_of σ g)]> σ)
      | None => (Raise AttributeError, σ)
      end
    else (Ok tt, σ).
Proof.
  intros Hp Hw. py_run. unfold has_editable_document.
  destruct (win_active_document (window_of σ w)) as [d|];
    destruct (win_active_view (window_of σ w)) as [[[]]|]; try reflexivity.
  simpl. by destruct (_action_group (helper_of σ self)).
Qed.

(** C5: [update_ui] returns; when the window has an active document and an
    active, editable view the action group is sensitive afterwards; otherwise
    the store, and with it the sensitivity of every action group, is as it
    was. *)
Theorem helper_update_ui_enables_only σ self window p w g :
  _plugin (helper_of σ self) = Some p →
  _window (helper_of σ self) = Some w →
  _action_group (helper_of σ self) = Some g →
  ∃ σ', Helper.update_ui self window σ = (Ok tt, σ') ∧
        (has_editable_document (window_of σ w) = true →
         ag_sensitive (action_group_of σ' g) = true) ∧
        (has_editable_document (window_of σ w) = false → σ' = σ) ∧
        (win_active_document (window_of σ w) = None → σ' = σ).
Proof.
  intros Hp Hw Hg. rewrite (helper_update_ui_run _ _ _ _ _ Hp Hw), Hg.
  unfold has_editable_document.
  destruct (win_active_document (window_of σ w)) as [d|];
    destruct (win_active_view (window_of σ w)) as [[[]]|];
    eexists; (split; [reflexivity|]); repeat split; try done;
    intros _; by rewrite action_group_of_set_eq.
Qed.

(** ** deactivate of the plugin *)

(** C6: [deactivate] for a window that has no helper in the dictionary raises
    [KeyError], and the store, the dictionary with it, is left as it was. *)
Theorem plugin_deactivate_unknown_window σ window :
  _instances σ !! window = None →
  Plugin.deactivate window σ = (Raise KeyError, σ).
Proof. intros H. by py_run. Qed.

(** Reading one kind of object after a write to another. *)
Lemma helper_of_frame σ h :
  (∀ f, helper_of (set_windows f σ) h = helper_of σ h) ∧
  (∀ f, helper_of (set_documents f σ) h = helper_of σ h) ∧
  (∀ f, helper_of (set_action_groups f σ) h = helper_of σ h) ∧
  (∀ f, helper_of (set_instances f σ) h = helper_of σ h).
Proof. done. Qed.

Lemma window_of_frame σ w :
  (∀ f, window_of (set_helpers f σ) w = window_of σ w) ∧
  (∀ f, window_of (set_documents f σ) w = window_of σ w) ∧
  (∀ f, window_of (set_action_groups f σ) w = window_of σ w) ∧
  (∀ f, window_of (set_instances f σ) w = window_of σ w).
Proof. done. Qed.

Lemma action_group_of_frame σ g :
  (∀ f, action_group_of (set_helpers f σ) g = action_group_of σ g) ∧
  (∀ f, action_group_of (set_documents f σ) g = action_group_of σ g) ∧
  (∀ f, action_group_of (set_windows f σ) g = action_group_of σ g) ∧
  (∀ f, action_group_of (set_instances f σ) g = action_group_of σ g).
Proof. done. Qed.

Ltac py_frame :=
  repeat first
    [ rewrite helper_of_set_helpers_eq
    | rewrite window_of_set_windows_eq
    | rewrite action_group_of_set_eq
    | rewrite (proj1 (helper_of_frame _ _))
    | rewrite (proj1 (proj2 (helper_of_frame _ _)))
    | rewrite (proj1 (proj2 (proj2 (helper_of_frame _ _))))
    | rewrite (proj2 (proj2 (proj2 (helper_of_frame _ _))))
    | rewrite (proj1 (window_of_frame _ _))
    | rewrite (proj1 (proj2 (window_of_frame _ _)))
    | rewrite (proj1 (proj2 (proj2 (window_of_frame _ _))))
    | rewrite (proj2 (proj2 (proj2 (window_of_frame _ _))))
    | rewrite (proj1 (action_group_of_frame _ _))
    | rewrite (proj1 (proj2 (action_group_of_frame _ _)))
    | rewrite (proj1 (proj2 (proj2 (action_group_of_frame _ _))))
    | rewrite (proj2 (proj2 (proj2 (action_group_of_frame _ _)))) ].

Arguments log : simpl never.

Ltac py_go H :=
  py_unfold;
  repeat (cbn beta iota delta [fst snd]; py_frame;
          rewrite ?log_info_silent, ?H;
          cbn [_window _plugin _ui_id _action_group Helper.with_window
               Helper.with_plugin Helper.with_ui_id Helper.with_action_group]).

Lemma remove_menu_run σ self p w u g :
  helper_of σ self =
    {| _window := Some w; _plugin := Some p; _ui_id := Some u;
       _action_group := Some g |} →
  Helper._remove_menu self σ =
    (Ok tt,
     set_windows
       <[w := win_set_ui_manager
                (mgr_ensure_update
                   (mgr_remove_action_group g
                      (mgr_remove_ui u (win_ui_manager (window_of σ w)))))
                (window_of σ w)]> σ).
Proof.
  intros H. py_go H. unfold set_windows. simpl.
  by rewrite !insert_insert_eq.
Qed.

Lemma helper_deactivate_run σ self p w u g :
  helper_of σ self =
    {| _window := Some w; _plugin := Some p; _ui_id := Some u;
       _action_group := Some g |} →
  Helper.deactivate self σ =
    (Ok tt,
     set_helpers
       <[self := {| _window := None; _plugin := None; _ui_id := Some u;
                    _action_group := None |}]>
       (set_windows
          <[w := win_set_ui_manager
                   (mgr_ensure_update
                      (mgr_remove_action_group g
                         (mgr_remove_ui u (win_ui_manager (window_of σ w)))))
                   (window_of σ w)]> σ)).
Proof.
  intros H. unfold Helper.deactivate.
  rewrite (run_bind_ok _ _ σ tt σ);
    [|apply (plugin_log_live _ _ _ _ _ p); by rewrite H].
  unfold Helper.getattr at 1, gets at 1.
  unfold mbind at 1, M_bind at 1, bind at 1.
  rewrite (run_bind_ok _ _ σ tt σ);
    [|apply (plugin_log_live _ _ _ _ _ p); by rewrite H].
  rewrite (run_bind_ok _ _ _ _ _ (remove_menu_run _ _ _ _ _ _ H)).
  py_go H. unfold set_helpers. simpl. by rewrite !insert_insert_eq.
Qed.

Lemma insert_menu_run σ self p w :
  helper_of σ self =
    {| _window := Some w; _plugin := Some p; _ui_id := None;
       _action_group := None |} →
  Helper._insert_menu self σ = (Ok tt, menu_inserted self p w σ).
Proof.
  intros H. unfold Helper._insert_menu, add_ui_from_string, gtk_ActionGroup.
  py_go H. simpl (action_groups _).
  unfold menu_inserted, set_helpers, set_windows, set_action_groups.
  simpl. by rewrite !insert_insert_eq.
Qed.

Lemma has_editable_document_menu_inserted self p w σ :
  has_editable_document (window_of (menu_inserted self p w σ) w) =
  has_editable_document (window_of σ w).
Proof. unfold menu_inserted. by py_frame. Qed.

Lemma setattr_run self f σ :
  Helper.setattr self f σ =
    (Ok tt, set_helpers <[self := f (helper_of σ self)]> σ).
Proof. reflexivity. Qed.

Lemma getattr_run {A} (f : HighlightTextWindowHelper → A) self σ :
  Helper.getattr f self σ = (Ok (f (helper_of σ self)), σ).
Proof. reflexivity. Qed.

Lemma set_helpers_twice self h1 h2 σ :
  set_helpers <[self := h2]> (set_helpers <[self := h1]> σ) =
  set_helpers <[self := h2]> σ.
Proof. unfold set_helpers. simpl. by rewrite insert_insert_eq. Qed.

Lemma set_action_groups_twice g G1 G2 σ :
  set_action_groups <[g := G2]> (set_action_groups <[g := G1]> σ) =
  set_action_groups <[g := G2]> σ.
Proof. unfold set_action_groups. simpl. by rewrite insert_insert_eq. Qed.

Ltac py_bind tac := erewrite run_bind_ok; [|tac]; py_frame.

Ltac py_log := py_bind ltac:(eapply plugin_log_live; py_frame; reflexivity).

Lemma menu_inserted_set_helpers self p w h σ :
  menu_inserted self p w (set_helpers <[self := h]> σ) =
  menu_inserted self p w σ.
Proof.
  unfold menu_inserted. py_frame. simpl (action_groups _).
  unfold set_helpers, set_windows, set_action_groups. simpl.
  by rewrite insert_insert_eq.
Qed.

Lemma helper_of_menu_inserted self p w σ :
  helper_of (menu_inserted self p w σ) self =
  live_helper w p
    (S (mgr_last_merge_id (win_ui_manager (window_of σ w))))
    (fresh (dom (action_groups σ))).
Proof. unfold menu_inserted. by py_frame. Qed.

Lemma helper_init_run σ self p w :
  Helper.__init__ self p w σ = (Ok tt, constructed self p w σ).
Proof.
  unfold Helper.__init__.
  py_bind ltac:(apply setattr_run).
  py_bind ltac:(apply setattr_run). rewrite set_helpers_twice.
  py_log.
  py_bind ltac:(apply getattr_run).
  py_log.
  py_bind ltac:(apply setattr_run). rewrite set_helpers_twice.
  py_bind ltac:(apply setattr_run). rewrite set_helpers_twice.
  py_bind ltac:(eapply insert_menu_run; py_frame; reflexivity).
  rewrite menu_inserted_set_helpers.
  erewrite run_bind_ok;
    [|erewrite run_bind_ok; [|apply getattr_run];
      rewrite helper_of_menu_inserted; reflexivity].
  erewrite helper_update_ui_run;
    [|rewrite helper_of_menu_inserted; reflexivity..].
  rewrite has_editable_document_menu_inserted, helper_of_menu_inserted.
  unfold constructed. simpl.
  by destruct (has_editable_document (window_of σ w)).
Qed.

Lemma helper_new_run σ p w :
  Helper.new p w σ =
    (Ok (fresh (dom (helpers σ))),
     constructed (fresh (dom (helpers σ))) p w σ).
Proof.
  unfold Helper.new.
  py_bind ltac:(reflexivity).
  py_bind ltac:(reflexivity).
  py_bind ltac:(apply helper_init_run).
  unfold constructed. py_frame. rewrite menu_inserted_set_helpers.
  reflexivity.
Qed.

Lemma plugin_activate_run σ window :
  Plugin.activate window σ =
    (Ok tt,
     set_instances <[window := fresh (dom (helpers σ))]>
       (constructed (fresh (dom (helpers σ))) the_plugin window σ)).
Proof.
  unfold Plugin.activate.
  py_bind ltac:(apply self_log_silent).
  py_bind ltac:(apply helper_new_run).
  reflexivity.
Qed.

Lemma plugin_deactivate_run σ window h :
  _instances σ !! window = Some h →
  Plugin.deactivate window σ =
    match Helper.deactivate h σ with
    | (Ok _, σ1) =>
        match _instances σ1 !! window with
        | Some _ => (Ok tt, set_instances (delete window) σ1)
        | None => (Raise KeyError, σ1)
        end
    | (Raise e, σ1) => (Raise e, σ1)
    end.
Proof.
  intros H. unfold Plugin.deactivate.
  py_bind ltac:(apply self_log_silent).
  erewrite run_bind_ok; [|unfold Plugin.instances_get, gets, mbind, M_bind, bind; by rewrite H].
  unfold mbind at 1, M_bind at 1, bind at 1.
  destruct (Helper.deactivate h σ) as [[[]|e] σ1]; [|done].
  unfold Plugin.instances_del, gets, mbind, M_bind, bind.
  by destruct (_instances σ1 !! window).
Qed.

(** ** The dictionary under the helper's methods *)

Section KeepsInstances.
Context {A B : Type}.

Lemma keeps_ret (a : A) : keeps_instances (mret a : M A).
Proof. done. Qed.

Lemma keeps_raise e : keeps_instances (raise e : M A).
Proof. done. Qed.

Lemma keeps_gets (f : Store → A) : keeps_instances (gets f).
Proof. done. Qed.

Lemma keeps_bind (c : M A) (k : A → M B) :
  keeps_instances c → (∀ a, keeps_instances (k a)) →
  keeps_instances (c ≫= k).
Proof.
  intros Hc Hk σ. unfold mbind, M_bind, bind.
  specialize (Hc σ). destruct (c σ) as [[a|e] σ1]; simpl in *.
  - by rewrite Hk.
  - done.
Qed.

Lemma keeps_deref (o : option A) : keeps_instances (deref o).
Proof. by destruct o. Qed.

Lemma keeps_expect (o : option A) : keeps_instances (expect o).
Proof. by destruct o. Qed.
End KeepsInstances.

Lemma keeps_modify (f : Store → Store) :
  (∀ σ, _instances (f σ) = _instances σ) → keeps_instances (modify f).
Proof. intros H σ. apply H. Qed.

Lemma keeps_log fr message lvl : keeps_instances (log fr message lvl).
Proof.
  intros σ. unfold log, logger_log.
  destruct message as [[|c s]|]; try done.
  destruct (logger_of_name lvl) as [l|]; [|done].
  by case_decide.
Qed.

Ltac keeps :=
  repeat first
    [ apply keeps_bind; [|intros ?]
    | apply keeps_ret | apply keeps_raise | apply keeps_gets
    | apply keeps_deref | apply keeps_expect | apply keeps_log
    | apply keeps_modify; done ].

Lemma keeps_plugin_log self line name message :
  keeps_instances (Helper.plugin_log self line name message).
Proof. unfold Helper.plugin_log, Helper.getattr. keeps. Qed.

Lemma keeps_remove_menu self : keeps_instances (Helper._remove_menu self).
Proof.
  unfold Helper._remove_menu, Helper.getattr, get_ui_manager, manager_call.
  keeps; apply keeps_plugin_log.
Qed.

Lemma keeps_helper_deactivate self :
  keeps_instances (Helper.deactivate self).
Proof.
  unfold Helper.deactivate, Helper.getattr, Helper.setattr.
  keeps; first [apply keeps_plugin_log | apply keeps_remove_menu].
Qed.

(** C9: [deactivate] of the plugin deletes the dictionary entry of the window
    after the helper's [deactivate] has returned; when the helper's
    [deactivate] raises, the exception is the outcome and the dictionary is as
    it was, the entry of the window still in it. *)
Theorem plugin_deactivate_after_teardown σ window h :
  _instances σ !! window = Some h →
  match Helper.deactivate h σ with
  | (Ok _, σ1) =>
      Plugin.deactivate window σ = (Ok tt, set_instances (delete window) σ1)
  | (Raise e, σ1) =>
      Plugin.deactivate window σ = (Raise e, σ1) ∧
      _instances σ1 = _instances σ ∧
      _instances σ1 !! window = Some h
  end.
Proof.
  intros H. rewrite (plugin_deactivate_run _ _ _ H).
  pose proof (keeps_helper_deactivate h σ) as Hk.
  destruct (Helper.deactivate h σ) as [[[]|e] σ1]; simpl in Hk.
  - by rewrite Hk, H.
  - by rewrite Hk.
Qed.

(** ** deactivate of the helper *)

(** C4, as the code has it: [deactivate] of a helper returns; the UI
    definition and the action group are no longer in the window's manager,
    which has been refreshed; the attributes [_plugin], [_window] and
    [_action_group] hold [None], and [_ui_id] keeps the merge id. *)
Theorem helper_deactivate_releases σ self p w u g :
  helper_of σ self = live_helper w p u g →
  ∃ σ', Helper.deactivate self σ = (Ok tt, σ') ∧
        (u ∉ (mgr_merged (win_ui_manager (window_of σ' w))).*1) ∧
        (g ∉ mgr_action_groups (win_ui_manager (window_of σ' w))) ∧
        mgr_update_pending (win_ui_manager (window_of σ' w)) = false ∧
        helper_of σ' self =
          {| _window := None; _plugin := None; _ui_id := Some u;
             _action_group := None |}.
Proof.
  intros H. eexists. split; [by eapply helper_deactivate_run|].
  py_frame. simpl. repeat split.
  - intros [[u' n] [-> Hin]]%list_elem_of_fmap.
    apply list_elem_of_filter in Hin as [Hne _]. by apply Hne.
  - intros [Hne _]%list_elem_of_filter. by apply Hne.
Qed.

(** C4, as stated, fails: after [deactivate] has returned, the helper that
    [activate] made for window 5 still holds its UI identifier. *)
Lemma helper_deactivate_keeps_ui_id :
  ¬ (∀ σ self σ',
       Helper.deactivate self σ = (Ok tt, σ') →
       helper_of σ' self = blank_helper).
Proof.
  intros H.
  assert (helper_of (Plugin.activate 5 empty_store).2 0 =
          live_helper 5 the_plugin 1 0) as Hlive by (vm_compute; reflexivity).
  specialize (H _ _ _ (helper_deactivate_run _ _ _ _ _ _ Hlive)).
  rewrite helper_of_set_helpers_eq in H. discriminate H.
Qed.

(** ** The dictionary under activate and deactivate *)

Lemma helpers_constructed self p w σ :
  ∃ u g, helpers (constructed self p w σ) =
         <[self := live_helper w p u g]> (helpers σ).
Proof.
  do 2 eexists. unfold constructed, menu_inserted.
  destruct (has_editable_document (window_of σ w)); reflexivity.
Qed.

Lemma instances_constructed self p w σ :
  _instances (constructed self p w σ) = _instances σ.
Proof.
  unfold constructed, menu_inserted.
  by destruct (has_editable_document (window_of σ w)).
Qed.

Lemma activate_consistent σ window :
  helpers_consistent σ →
  ∃ σ', Plugin.activate window σ = (Ok tt, σ') ∧
        helpers_consistent σ' ∧
        _instances σ' = <[window := fresh (dom (helpers σ))]> (_instances σ).
Proof.
  intros Hc. eexists. split; [apply plugin_activate_run|].
  set (self := fresh (dom (helpers σ))).
  destruct (helpers_constructed self the_plugin window σ) as (u & g & Hh).
  split; [|simpl; by rewrite instances_constructed].
  intros w h. simpl. rewrite instances_constructed.
  unfold helper_of. simpl. rewrite Hh, dom_insert_L.
  destruct (decide (window = w)) as [->|Hne].
  - rewrite lookup_insert_eq. intros [= <-]. split; [set_solver|].
    exists u, g. by rewrite lookup_insert_eq.
  - rewrite lookup_insert_ne by done. intros Hw.
    destruct (Hc w h Hw) as (Hdom & u' & g' & Hlive).
    split; [set_solver|]. exists u', g'.
    rewrite lookup_insert_ne; [done|].
    intros <-. by apply (is_fresh (dom (helpers σ))).
Qed.

Lemma deactivate_consistent σ window :
  helpers_consistent σ →
  window ∈ dom (_instances σ) →
  ∃ σ', Plugin.deactivate window σ = (Ok tt, σ') ∧
        helpers_consistent σ' ∧
        _instances σ' = delete window (_instances σ).
Proof.
  intros Hc [h Hw]%elem_of_dom.
  destruct (Hc window h Hw) as (Hdom & u & g & Hlive).
  pose proof (plugin_deactivate_run σ window h Hw) as Hd.
  rewrite (helper_deactivate_run _ _ _ _ _ _ Hlive) in Hd.
  simpl in Hd. rewrite Hw in Hd.
  eexists. split; [exact Hd|]. split; [|done].
  intros w' h'. simpl. intros Hw'.
  apply lookup_delete_Some in Hw' as [Hne Hw'].
  destruct (Hc w' h' Hw') as (Hdom' & u' & g' & Hlive').
  unfold helper_of. simpl. rewrite dom_insert_L. split; [set_solver|].
  exists u', g'. rewrite lookup_insert_ne; [done|].
  intros <-. rewrite Hlive in Hlive'. by injection Hlive'.
Qed.

Lemma run_calls_tracks cs : ∀ σ ws,
  helpers_consistent σ →
  dom (_instances σ) = ws →
  well_paired cs ws = true →
  ∃ σ', run_calls cs σ = (Ok tt, σ') ∧
        helpers_consistent σ' ∧
        dom (_instances σ') = activated cs ws.
Proof.
  induction cs as [|[w|w] cs IH]; intros σ ws Hc Hdom Hp; simpl in *.
  - by exists σ.
  - apply andb_prop in Hp as [_ Hp].
    destruct (activate_consistent σ w Hc) as (σ1 & Hrun & Hc1 & Hi).
    destruct (IH σ1 ({[w]} ∪ ws) Hc1) as (σ' & Hrun' & Hc' & Hdom'); [|done|].
    { by rewrite Hi, dom_insert_L, Hdom. }
    exists σ'. by rewrite (run_bind_ok _ _ _ _ _ Hrun).
  - apply andb_prop in Hp as [Hin%bool_decide_eq_true Hp].
    rewrite <- Hdom in Hin.
    destruct (deactivate_consistent σ w Hc Hin) as (σ1 & Hrun & Hc1 & Hi).
    destruct (IH σ1 (ws ∖ {[w]}) Hc1) as (σ' & Hrun' & Hc' & Hdom'); [|done|].
    { by rewrite Hi, dom_delete_L, Hdom. }
    exists σ'. by rewrite (run_bind_ok _ _ _ _ _ Hrun).
Qed.

(** C3: after the plugin is loaded, every sequence of activate and deactivate
    calls in which each activate uses a window not currently activated and
    each deactivate a currently activated one runs without an exception, and
    afterwards the dictionary has exactly the windows activated and not since
    deactivated as its keys, each with a helper of its own that holds this
    window. *)
Theorem instances_track_activated_windows σ cs :
  well_paired cs ∅ = true →
  ∃ σ', (Plugin.__init__;; run_calls cs) σ = (Ok tt, σ') ∧
        dom (_instances σ') = activated cs ∅ ∧
        (∀ w h, _instances σ' !! w = Some h →
                _window (helper_of σ' h) = Some w) ∧
        (∀ w1 w2 h, _instances σ' !! w1 = Some h →
                    _instances σ' !! w2 = Some h → w1 = w2).
Proof.
  intros Hp.
  assert (Plugin.__init__ σ = (Ok tt, set_instances (λ _, ∅) σ)) as Hinit.
  { unfold Plugin.__init__.
    by do 2 (erewrite run_bind_ok; [|apply self_log_silent]). }
  destruct (run_calls_tracks cs (set_instances (λ _, ∅) σ) ∅)
    as (σ' & Hrun & Hc & Hdom); [done|done|done|].
  exists σ'. rewrite (run_bind_ok _ _ _ _ _ Hinit).
  assert (∀ w h, _instances σ' !! w = Some h →
                 _window (helper_of σ' h) = Some w) as Hwin.
  { intros w h Hw. destruct (Hc w h Hw) as (_ & u & g & ->). done. }
  repeat split; [done..|].
  intros w1 w2 h H1%Hwin H2%Hwin. congruence.
Qed.

(** ** The theorems at the example stores *)

Lemma highlight_selection_foo_witness :
  ∃ σ', Helper._highlight_selection 0 (menu_action 0) (example_store 2)
          = (Ok tt, σ') ∧
        doc_search_text (document_of σ' 7) = "foo" ∧
        flag_set SEARCH_CASE_SENSITIVE (doc_search_flags (document_of σ' 7))
          = true ∧
        flag_set SEARCH_ENTIRE_WORD (doc_search_flags (document_of σ' 7))
          = false.
Proof.
  apply (highlight_selection_foo (example_store 2) 0 (menu_action 0)
           the_plugin 5 7); vm_compute; reflexivity.
Defined.

Lemma highlight_selection_none_witness :
  ∃ σ', Helper._highlight_selection 0 (menu_action 0) (example_store 5)
          = (Ok tt, σ') ∧
        doc_search_text (document_of σ' 7) = "" ∧
        flag_set SEARCH_CASE_SENSITIVE (doc_search_flags (document_of σ' 7))
          = true ∧
        flag_set SEARCH_ENTIRE_WORD (doc_search_flags (document_of σ' 7))
          = false.
Proof.
  apply (highlight_selection_none (example_store 5) 0 (menu_action 0)
           the_plugin 5 7); vm_compute; reflexivity.
Defined.

Lemma highlight_selection_no_document_witness :
  Helper._get_text_selection 0 example_store_no_document
    = (Raise AttributeError, example_store_no_document) ∧
  Helper._highlight_selection 0 (menu_action 0) example_store_no_document
    = (Raise AttributeError, example_store_no_document).
Proof.
  apply (highlight_selection_no_document example_store_no_document 0
           (menu_action 0) the_plugin 5); vm_compute; reflexivity.
Defined.

Lemma helper_update_ui_enables_only_witness :
  ∃ σ', Helper.update_ui 0 5 (example_store 2) = (Ok tt, σ') ∧
        (has_editable_document (window_of (example_store 2) 5) = true →
         ag_sensitive (action_group_of σ' 0) = true) ∧
        (has_editable_document (window_of (example_store 2) 5) = false →
         σ' = example_store 2) ∧
        (win_active_document (window_of (example_store 2) 5) = None →
         σ' = example_store 2).
Proof.
  apply (helper_update_ui_enables_only (example_store 2) 0 5 the_plugin 5 0);
    vm_compute; reflexivity.
Defined.

Lemma plugin_deactivate_unknown_window_witness :
  Plugin.deactivate 5 empty_store = (Raise KeyError, empty_store).
Proof. apply plugin_deactivate_unknown_window. reflexivity. Defined.

Lemma plugin_deactivate_after_teardown_witness :
  match Helper.deactivate 0 example_store_released with
  | (Ok _, σ1) =>
      Plugin.deactivate 5 example_store_released
        = (Ok tt, set_instances (delete 5) σ1)
  | (Raise e, σ1) =>
      Plugin.deactivate 5 example_store_released = (Raise e, σ1) ∧
      _instances σ1 = _instances example_store_released ∧
      _instances σ1 !! 5 = Some 0
  end.
Proof.
  apply (plugin_deactivate_after_teardown example_store_released 5 0).
  vm_compute. reflexivity.
Defined.

Lemma helper_deactivate_releases_witness :
  ∃ σ', Helper.deactivate 0 example_store_no_document = (Ok tt, σ') ∧
        (1 ∉ (mgr_merged (win_ui_manager (window_of σ' 5))).*1) ∧
        (0 ∉ mgr_action_groups (win_ui_manager (window_of σ' 5))) ∧
        mgr_update_pending (win_ui_manager (window_of σ' 5)) = false ∧
        helper_of σ' 0 =
          {| _window := None; _plugin := None; _ui_id := Some 1;
             _action_group := None |}.
Proof.
  apply (helper_deactivate_releases example_store_no_document 0 the_plugin
           5 1 0).
  vm_compute. reflexivity.
Defined.

Lemma instances_track_activated_windows_witness :
  ∃ σ', (Plugin.__init__;;
         run_calls [Activate 1; Activate 2; Deactivate 1]) empty_store
          = (Ok tt, σ') ∧
        dom (_instances σ')
          = activated [Activate 1; Activate 2; Deactivate 1] ∅ ∧
        (∀ w h, _instances σ' !! w = Some h →
                _window (helper_of σ' h) = Some w) ∧
        (∀ w1 w2 h, _instances σ' !! w1 = Some h →
                    _instances σ' !! w2 = Some h → w1 = w2).
Proof.
  apply (instances_track_activated_windows empty_store
           [Activate 1; Activate 2; Deactivate 1]).
  vm_compute. reflexivity.
Defined.

(** * Further properties *)

(** ** What a method leaves alone *)

Section Preserves.
Context {X : Type} (proj : Store → X).

Lemma preserves_ret {A} (a : A) : preserves proj (mret a : M A).
Proof. done. Qed.

Lemma preserves_raise {A} e : preserves proj (raise e : M A).
Proof. done. Qed.

Lemma preserves_gets {A} (f : Store → A) : preserves proj (gets f).
Proof. done. Qed.

Lemma preserves_bind {A B} (c : M A) (k : A → M B) :
  preserves proj c → (∀ a, preserves proj (k a)) → preserves proj (c ≫= k).
Proof.
  intros Hc Hk σ. unfold mbind, M_bind, bind.
  specialize (Hc σ). destruct (c σ) as [[a|e] σ1]; simpl in *.
  - by rewrite Hk.
  - done.
Qed.

Lemma preserves_deref {A} (o : option A) : preserves proj (deref o).
Proof. by destruct o. Qed.

Lemma preserves_expect {A} (o : option A) : preserves proj (expect o).
Proof. by destruct o. Qed.

Lemma preserves_modify (f : Store → Store) :
  (∀ σ, proj (f σ) = proj σ) → preserves proj (modify f).
Proof. intros H σ. apply H. Qed.

Lemma preserves_log_info fr message : preserves proj (log fr message "info").
Proof. intros σ. by rewrite log_info_silent. Qed.

Lemma preserves_if {A} (b : bool) (c1 c2 : M A) :
  preserves proj c1 → preserves proj c2 →
  preserves proj (if b then c1 else c2).
Proof. by destruct b. Qed.
End Preserves.

Ltac preserves_step :=
  first
    [ apply preserves_bind; [|intros ?]
    | apply preserves_ret | apply preserves_raise | apply preserves_gets
    | apply preserves_deref | apply preserves_expect
    | apply preserves_log_info
    | apply preserves_if
    | apply preserves_modify; intros ?; auto; done ].

Ltac preserves_unfold :=
  unfold Plugin.deactivate, Plugin.update_ui, Plugin.activate,
    Plugin.is_configurable, Plugin.__init__,
    Plugin.instances_get, Plugin.instances_del, Plugin.self_log,
    Helper._highlight_selection, Helper._get_text_selection,
    Helper.update_ui, Helper.deactivate, Helper._remove_menu,
    Helper._insert_menu, Helper.__init__, Helper.new,
    Helper.plugin_log, Helper.getattr, Helper.setattr,
    add_ui_from_string, gtk_ActionGroup,
    get_active_document, get_active_view, get_ui_manager, manager_call,
    action_group_call, document_call.

Ltac preserves_solve :=
  preserves_unfold;
  repeat first
    [ preserves_step
    | match goal with
      | |- preserves _ (match ?o with Some _ => _ | None => _ end) =>
          destruct o
      | |- preserves _ (let '(_, _) := ?p in _) => destruct p
      | |- preserves _ (match ?o with Some _ => _ | None => _ end _) =>
          destruct o
      end ].

(** [_get_text_selection] reads: whatever its outcome, the store is the one
    it was called in. *)
Theorem get_text_selection_reads_only self σ :
  (Helper._get_text_selection self σ).2 = σ.
Proof.
  revert σ. change (preserves (λ σ, σ) (Helper._get_text_selection self)).
  preserves_solve.
Qed.

(** The plugin prints nothing: its logger is at level [WARNING] and every
    message of the module is logged at level info or debug, so no method
    called by the host, and no menu callback, adds a line to standard
    output, whatever its outcome. *)
Theorem plugin_prints_nothing window self action σ :
  stdout (Plugin.__init__ σ).2 = stdout σ ∧
  stdout (Plugin.activate window σ).2 = stdout σ ∧
  stdout (Plugin.deactivate window σ).2 = stdout σ ∧
  stdout (Plugin.update_ui window σ).2 = stdout σ ∧
  stdout (Plugin.is_configurable σ).2 = stdout σ ∧
  stdout (Helper._highlight_selection self action σ).2 = stdout σ.
Proof.
  repeat split; revert σ;
    match goal with
    | |- ∀ σ, stdout (?c σ).2 = stdout σ => change (preserves stdout c)
    end; preserves_solve.
Qed.

(** [update_ui] of the plugin for a window that has no helper in the
    dictionary raises [KeyError] and changes nothing. *)
Theorem plugin_update_ui_unknown_window σ window :
  _instances σ !! window = None →
  Plugin.update_ui window σ = (Raise KeyError, σ).
Proof. intros H. by py_run. Qed.

Lemma helper_update_ui_cases self window σ :
  (Helper.update_ui self window σ).2 = σ ∨
  ∃ g, (Helper.update_ui self window σ).2 =
       set_action_groups <[g := ag_set_sensitive true (action_group_of σ g)]> σ.
Proof.
  destruct (_plugin (helper_of σ self)) as [p|] eqn:Hp.
  2: { left. unfold Helper.update_ui.
       by erewrite run_bind_raise; [|by apply plugin_log_released]. }
  destruct (_window (helper_of σ self)) as [w|] eqn:Hw.
  2: { left. by py_run. }
  rewrite (helper_update_ui_run _ _ _ _ _ Hp Hw).
  destruct (has_editable_document (window_of σ w)); [|by left].
  destruct (_action_group (helper_of σ self)) as [g|]; [|by left].
  right. by exists g.
Qed.

(** [update_ui] of the plugin touches action groups only, and of an action
    group only the sensitivity, which it never turns off: windows, documents,
    helpers and the dictionary are as before, every action group keeps its
    name and actions, and a group that was sensitive still is. *)
Theorem plugin_update_ui_only_enables window σ :
  let σ' := (Plugin.update_ui window σ).2 in
  windows σ' = windows σ ∧ documents σ' = documents σ ∧
  helpers σ' = helpers σ ∧ _instances σ' = _instances σ ∧
  ∀ g, ag_name (action_group_of σ' g) = ag_name (action_group_of σ g) ∧
       ag_actions (action_group_of σ' g) = ag_actions (action_group_of σ g) ∧
       (ag_sensitive (action_group_of σ g) = true →
        ag_sensitive (action_group_of σ' g) = true).
Proof.
  assert (∃ h, (Plugin.update_ui window σ).2 = (Helper.update_ui h window σ).2
               ∨ (Plugin.update_ui window σ).2 = σ) as [h [-> | ->]].
  { destruct (_instances σ !! window) as [h|] eqn:Hi.
    - exists h. left. unfold Plugin.update_ui.
      erewrite run_bind_ok; [|apply self_log_silent].
      erewrite run_bind_ok; [done|].
      unfold Plugin.instances_get, gets, mbind, M_bind, bind. by rewrite Hi.
    - exists 0. right. by py_run. }
  2: done.
  destruct (helper_update_ui_cases h window σ) as [-> | [g0 ->]]; [done|].
  simpl. repeat split; try done.
  - destruct (decide (g0 = g)) as [->|Hne].
    + by rewrite action_group_of_set_eq.
    + by rewrite action_group_of_set_ne.
  - destruct (decide (g0 = g)) as [->|Hne].
    + by rewrite action_group_of_set_eq.
    + by rewrite action_group_of_set_ne.
  - destruct (decide (g0 = g)) as [->|Hne].
    + by rewrite action_group_of_set_eq.
    + by rewrite action_group_of_set_ne.
Qed.

(** ** log *)


(** A message logged at level warning, error or critical is printed as one
    line, the level name in capitals, [" - "] and the message; the same
    message at level debug or info is not printed. *)
Theorem log_prints_from_warning fr c s σ :
  let m := String c s in
  log fr (Some m) "warning" σ
    = (Ok tt, set_stdout (λ out, out ++ ["WARNING - " +:+ m]) σ) ∧
  log fr (Some m) "error" σ
    = (Ok tt, set_stdout (λ out, out ++ ["ERROR - " +:+ m]) σ) ∧
  log fr (Some m) "critical" σ
    = (Ok tt, set_stdout (λ out, out ++ ["CRITICAL - " +:+ m]) σ) ∧
  log fr (Some m) "info" σ = (Ok tt, σ) ∧
  log fr (Some m) "debug" σ = (Ok tt, σ).
Proof. done. Qed.

(** ** A helper after deactivate *)

Lemma helper_deactivate_ok_inv self σ σ' :
  Helper.deactivate self σ = (Ok tt, σ') →
  ∃ w p u g, helper_of σ self = live_helper w p u g.
Proof.
  destruct (helper_of σ self) as [[w|] [p|] [u|] [g|]] eqn:H; intros Hrun;
    try (by exists w, p, u, g);
    exfalso; revert Hrun; py_go H; discriminate.
Qed.

Lemma helper_released_after_deactivate self σ σ' :
  Helper.deactivate self σ = (Ok tt, σ') →
  _plugin (helper_of σ' self) = None.
Proof.
  intros Hrun.
  destruct (helper_deactivate_ok_inv _ _ _ Hrun) as (w & p & u & g & H).
  rewrite (helper_deactivate_run _ _ _ _ _ _ H) in Hrun.
  injection Hrun as <-. by rewrite helper_of_set_helpers_eq.
Qed.

Lemma released_raises {A} self line name message (k : unit → M A) σ :
  _plugin (helper_of σ self) = None →
  (Helper.plugin_log self line name message ≫= k) σ
    = (Raise AttributeError, σ).
Proof. intros H. by erewrite run_bind_raise; [|by apply plugin_log_released]. Qed.

(** After [deactivate] of a helper has returned, the helper is of no use:
    a second [deactivate], [update_ui] and the menu callback raise
    [AttributeError] at their first line and change nothing. *)
Theorem deactivated_helper_raises self window action σ σ' :
  Helper.deactivate self σ = (Ok tt, σ') →
  Helper.deactivate self σ' = (Raise AttributeError, σ') ∧
  Helper.update_ui self window σ' = (Raise AttributeError, σ') ∧
  Helper._highlight_selection self action σ' = (Raise AttributeError, σ') ∧
  Helper._get_text_selection self σ' = (Raise AttributeError, σ').
Proof.
  intros H%helper_released_after_deactivate.
  repeat split; by apply released_raises.
Qed.

(** After [deactivate] of the plugin has returned for a window, the window
    has no helper: a second [deactivate] and [update_ui] for it raise
    [KeyError] and change nothing. *)
Theorem plugin_deactivate_twice window σ σ' :
  Plugin.deactivate window σ = (Ok tt, σ') →
  _instances σ' !! window = None ∧
  Plugin.deactivate window σ' = (Raise KeyError, σ') ∧
  Plugin.update_ui window σ' = (Raise KeyError, σ').
Proof.
  intros Hrun.
  assert (_instances σ' !! window = None) as Hnone.
  { destruct (_instances σ !! window) as [h|] eqn:Hi.
    - rewrite (plugin_deactivate_run _ _ _ Hi) in Hrun.
      destruct (Helper.deactivate h σ) as [[[]|e] σ1]; [|done].
      destruct (_instances σ1 !! window); [|done].
      injection Hrun as <-. simpl. apply lookup_delete_eq.
    - revert Hrun. by py_run. }
  split; [done|]. split; by py_run.
Qed.

(** ** The menu callback *)


(** Choosing the menu entry twice is the same as choosing it once: the
    second call has the outcome of the first and reaches the same store. *)
Theorem highlight_selection_idempotent self action σ :
  (Helper._highlight_selection self action;;
   Helper._highlight_selection self action) σ
  = Helper._highlight_selection self action σ.
Proof.
  destruct (_plugin (helper_of σ self)) as [p|] eqn:Hp.
  2: { unfold Helper._highlight_selection at 2 3.
       rewrite released_raises by done.
       by erewrite run_bind_raise; [|unfold Helper._highlight_selection;
                                      by apply released_raises]. }
  destruct (_window (helper_of σ self)) as [w|] eqn:Hw.
  2: { assert (Helper._highlight_selection self action σ
               = (Raise AttributeError, σ)) as Hr by by py_run.
       by rewrite (run_bind_raise _ _ _ _ _ Hr), Hr. }
  destruct (win_active_document (window_of σ w)) as [d|] eqn:Hd.
  2: { assert (Helper._highlight_selection self action σ
               = (Raise AttributeError, σ)) as Hr by by py_run.
       by rewrite (run_bind_raise _ _ _ _ _ Hr), Hr. }
  pose proof (highlight_selection_run _ _ action _ _ _ Hp Hw Hd) as Hr.
  rewrite (run_bind_ok _ _ _ _ _ Hr), Hr.
  erewrite highlight_selection_run; [|by py_frame..].
  rewrite document_of_set_documents_eq.
  unfold set_documents. simpl. by rewrite insert_insert_eq.
Qed.

(** ** activate *)

Lemma window_of_constructed_eq self p w σ :
  window_of (constructed self p w σ) w =
  win_set_ui_manager
    (mgr_add_ui Helper.ui_str
       (mgr_insert_action_group (fresh (dom (action_groups σ))) (-1)
          (win_ui_manager (window_of σ w)))).2
    (window_of σ w).
Proof.
  unfold constructed, menu_inserted.
  destruct (has_editable_document (window_of σ w)); by py_frame.
Qed.

Lemma windows_constructed self p w σ :
  ∃ W, windows (constructed self p w σ) = <[w := W]> (windows σ).
Proof.
  eexists. unfold constructed, menu_inserted.
  destruct (has_editable_document (window_of σ w)); reflexivity.
Qed.

Lemma documents_constructed self p w σ :
  documents (constructed self p w σ) = documents σ.
Proof.
  unfold constructed, menu_inserted.
  by destruct (has_editable_document (window_of σ w)).
Qed.

Lemma action_groups_constructed self p w σ :
  ∃ G, action_groups (constructed self p w σ)
         = <[fresh (dom (action_groups σ)) := G]> (action_groups σ) ∧
       ag_name G = "HighlightTextPluginActions" ∧
       ag_actions G = [menu_action self] ∧
       (has_editable_document (window_of σ w) = true →
        ag_sensitive G = true).
Proof.
  unfold constructed, menu_inserted.
  destruct (has_editable_document (window_of σ w)).
  - eexists. split.
    + simpl. rewrite insert_insert_eq. reflexivity.
    + by py_frame.
  - eexists. split; [reflexivity|]. done.
Qed.

(** [activate] returns for every window and every store.  Afterwards the
    dictionary has a helper for the window that holds the window, the plugin,
    its merge id and its action group; the group is the last of the window's
    manager and the UI definition is merged last under the helper's merge id;
    the group has the one action HighlightText, whose callback is this
    helper; and the group is sensitive when the window has an active document
    and an active, editable view. *)
Theorem plugin_activate_inserts_menu window σ :
  ∃ σ' h u g,
    Plugin.activate window σ = (Ok tt, σ') ∧
    _instances σ' !! window = Some h ∧
    helper_of σ' h = live_helper window the_plugin u g ∧
    mgr_action_groups (win_ui_manager (window_of σ' window))
      = mgr_action_groups (win_ui_manager (window_of σ window)) ++ [g] ∧
    mgr_merged (win_ui_manager (window_of σ' window))
      = mgr_merged (win_ui_manager (window_of σ window))
        ++ [(u, Helper.ui_str)] ∧
    ag_actions (action_group_of σ' g) = [menu_action h] ∧
    act_callback (menu_action h) = h ∧
    (has_editable_document (window_of σ window) = true →
     ag_sensitive (action_group_of σ' g) = true).
Proof.
  set (h := fresh (dom (helpers σ))).
  destruct (action_groups_constructed h the_plugin window σ)
    as (G & HG & _ & Hact & Hsens).
  destruct (helpers_constructed h the_plugin window σ) as (u & g & Hh).
  exists (set_instances <[window := h]> (constructed h the_plugin window σ)),
    h, (S (mgr_last_merge_id (win_ui_manager (window_of σ window)))),
    (fresh (dom (action_groups σ))).
  split; [apply plugin_activate_run|].
  split; [simpl; apply lookup_insert_eq|].
  py_frame. rewrite window_of_constructed_eq.
  assert (action_group_of (constructed h the_plugin window σ)
            (fresh (dom (action_groups σ))) = G) as ->.
  { unfold action_group_of. by rewrite HG, lookup_insert_eq. }
  repeat split; try done.
  unfold constructed.
  destruct (has_editable_document (window_of σ window)); py_frame;
    apply helper_of_menu_inserted.
Qed.

(** [activate] for a window leaves the rest of the store alone: the
    documents, the other windows, the active document and view of the window
    itself, the action groups and helpers that exist, and the dictionary
    entries of the other windows. *)
Theorem plugin_activate_frame window σ :
  let σ' := (Plugin.activate window σ).2 in
  documents σ' = documents σ ∧
  win_active_document (window_of σ' window)
    = win_active_document (window_of σ window) ∧
  win_active_view (window_of σ' window)
    = win_active_view (window_of σ window) ∧
  (∀ w, w ≠ window → window_of σ' w = window_of σ w) ∧
  (∀ w, w ≠ window → _instances σ' !! w = _instances σ !! w) ∧
  (∀ g, g ∈ dom (action_groups σ) →
        action_groups σ' !! g = action_groups σ !! g) ∧
  (∀ h, h ∈ dom (helpers σ) → helpers σ' !! h = helpers σ !! h).
Proof.
  rewrite plugin_activate_run. simpl.
  set (h := fresh (dom (helpers σ))).
  destruct (action_groups_constructed h the_plugin window σ) as (G & HG & _).
  destruct (helpers_constructed h the_plugin window σ) as (u & g & Hh).
  destruct (windows_constructed h the_plugin window σ) as (W & HW).
  rewrite instances_constructed, documents_constructed, HG, Hh.
  py_frame. rewrite window_of_constructed_eq.
  repeat split; try done.
  - intros w Hne. unfold window_of. simpl. rewrite HW.
    by rewrite lookup_insert_ne.
  - intros w Hne. by rewrite lookup_insert_ne.
  - intros g' Hin. rewrite lookup_insert_ne; [done|].
    intros <-. by apply (is_fresh (dom (action_groups σ))).
  - intros h' Hin. rewrite lookup_insert_ne; [done|].
    intros <-. by apply (is_fresh (dom (helpers σ))).
Qed.

(** ** activate and deactivate together *)

Lemma filter_snoc_out {A} (P : A → Prop) `{!∀ x, Decision (P x)} l x :
  ¬ P x → Forall P l → filter P (l ++ [x]) = l.
Proof.
  intros Hx Hl. rewrite filter_app, filter_cons_False, filter_nil by done.
  rewrite app_nil_r. induction Hl as [|y l Hy Hl IH]; [done|].
  by rewrite filter_cons_True, IH.
Qed.

Lemma helper_of_constructed self p w σ :
  helper_of (constructed self p w σ) self =
  live_helper w p
    (S (mgr_last_merge_id (win_ui_manager (window_of σ w))))
    (fresh (dom (action_groups σ))).
Proof.
  unfold constructed.
  destruct (has_editable_document (window_of σ w)); py_frame;
    apply helper_of_menu_inserted.
Qed.

(** The store after [activate] and then [deactivate] for the same window. *)
Lemma activate_deactivate_run window σ :
  let h := fresh (dom (helpers σ)) in
  let g := fresh (dom (action_groups σ)) in
  let u := S (mgr_last_merge_id (win_ui_manager (window_of σ window))) in
  let σ1 := constructed h the_plugin window σ in
  (Plugin.activate window;; Plugin.deactivate window) σ =
    (Ok tt,
     set_instances (delete window)
       (set_helpers
          <[h := {| _window := None; _plugin := None; _ui_id := Some u;
                    _action_group := None |}]>
          (set_windows
             <[window :=
                 win_set_ui_manager
                   (mgr_ensure_update
                      (mgr_remove_action_group g
                         (mgr_remove_ui u
                            (win_ui_manager (window_of σ1 window)))))
                   (window_of σ1 window)]>
             (set_instances <[window := h]> σ1)))).
Proof.
  intros h g u σ1.
  rewrite (run_bind_ok _ _ _ _ _ (plugin_activate_run σ window)).
  fold h. fold σ1.
  rewrite (plugin_deactivate_run _ _ h) by (simpl; apply lookup_insert_eq).
  erewrite helper_deactivate_run;
    [|py_frame; unfold σ1; apply helper_of_constructed].
  py_frame. simpl. by rewrite lookup_insert_eq.
Qed.

(** [activate] followed by [deactivate] for the same window leaves the menu
    of the window as it was: the action groups and the merged UI definitions
    of its manager are those from before, and so are its document and view,
    the other windows and the documents; the dictionary has no entry for the
    window. *)
Theorem activate_deactivate_restores_menu window σ :
  manager_well_formed σ window →
  ∃ σ', (Plugin.activate window;; Plugin.deactivate window) σ = (Ok tt, σ') ∧
        mgr_action_groups (win_ui_manager (window_of σ' window))
          = mgr_action_groups (win_ui_manager (window_of σ window)) ∧
        mgr_merged (win_ui_manager (window_of σ' window))
          = mgr_merged (win_ui_manager (window_of σ window)) ∧
        win_active_document (window_of σ' window)
          = win_active_document (window_of σ window) ∧
        win_active_view (window_of σ' window)
          = win_active_view (window_of σ window) ∧
        (∀ w, w ≠ window → window_of σ' w = window_of σ w) ∧
        documents σ' = documents σ ∧
        _instances σ' = delete window (_instances σ).
Proof.
  intros [Hgs Hids]. eexists. split; [apply activate_deactivate_run|].
  destruct (windows_constructed (fresh (dom (helpers σ))) the_plugin window σ)
    as (W & HW).
  py_frame. rewrite window_of_constructed_eq. simpl.
  rewrite instances_constructed, documents_constructed, delete_insert_eq.
  repeat split; try done.
  - apply filter_snoc_out; [by intros ?|].
    apply Forall_forall. intros g Hg Heq.
    apply (is_fresh (dom (action_groups σ))). rewrite <- Heq. by apply Hgs.
  - apply filter_snoc_out; [by intros ?|].
    apply Forall_forall. intros e He%Hids Heq. simpl in Heq.
    unfold merge_id in *. lia.
  - intros w Hne. unfold window_of. simpl. rewrite HW.
    by rewrite !lookup_insert_ne.
Qed.

(** [activate] for a window that already has a helper overwrites the
    dictionary entry, and the helper it replaces is left behind: after the
    next [deactivate] the window has no helper, while the action group and
    the UI definition of the replaced helper are still in the window's
    manager and the replaced helper still holds all its references. *)
Theorem activate_twice_leaves_menu window σ h1 u1 g1 :
  _instances σ !! window = Some h1 →
  h1 ∈ dom (helpers σ) →
  helper_of σ h1 = live_helper window the_plugin u1 g1 →
  g1 ∈ dom (action_groups σ) →
  g1 ∈ mgr_action_groups (win_ui_manager (window_of σ window)) →
  (u1, Helper.ui_str) ∈ mgr_merged (win_ui_manager (window_of σ window)) →
  u1 ≤ mgr_last_merge_id (win_ui_manager (window_of σ window)) →
  ∃ σ', (Plugin.activate window;; Plugin.deactivate window) σ = (Ok tt, σ') ∧
        _instances σ' !! window = None ∧
        helper_of σ' h1 = live_helper window the_plugin u1 g1 ∧
        g1 ∈ mgr_action_groups (win_ui_manager (window_of σ' window)) ∧
        (u1, Helper.ui_str)
          ∈ mgr_merged (win_ui_manager (window_of σ' window)).
Proof.
  intros Hi Hh1 Hlive Hg1 Hin Hui Hu1.
  eexists. split; [apply activate_deactivate_run|].
  destruct (helpers_constructed (fresh (dom (helpers σ))) the_plugin window σ)
    as (u & g & Hh).
  py_frame. rewrite window_of_constructed_eq. simpl.
  split; [apply lookup_delete_eq|]. split; [|split].
  - unfold helper_of in *. simpl. rewrite Hh.
    rewrite !lookup_insert_ne; [done|..];
      intros <-; by apply (is_fresh (dom (helpers σ))).
  - apply list_elem_of_filter. split.
    + intros ->. by apply (is_fresh (dom (action_groups σ))).
    + apply elem_of_app. by left.
  - apply list_elem_of_filter. split.
    + simpl. lia.
    + apply elem_of_app. by left.
Qed.

(** ** The host's calls over time *)

Lemma helpers_consistent_ext σ σ' :
  helpers σ' = helpers σ → _instances σ' = _instances σ →
  helpers_consistent σ → helpers_consistent σ'.
Proof.
  intros Hh Hi Hc w h. unfold helper_of. rewrite Hh, Hi. apply Hc.
Qed.

Lemma update_ui_consistent σ window :
  helpers_consistent σ →
  window ∈ dom (_instances σ) →
  ∃ σ', Plugin.update_ui window σ = (Ok tt, σ') ∧
        helpers σ' = helpers σ ∧ _instances σ' = _instances σ.
Proof.
  intros Hc [h Hw]%elem_of_dom.
  destruct (Hc window h Hw) as (_ & u & g & Hlive).
  unfold Plugin.update_ui.
  erewrite run_bind_ok; [|apply self_log_silent].
  erewrite run_bind_ok;
    [|unfold Plugin.instances_get, gets, mbind, M_bind, bind; by rewrite Hw].
  erewrite helper_update_ui_run; [|by rewrite Hlive..].
  rewrite Hlive. simpl.
  destruct (has_editable_document (window_of σ window)); by eexists.
Qed.

Lemma run_events_tracks es : ∀ σ ws,
  helpers_consistent σ →
  dom (_instances σ) = ws →
  events_well_paired es ws = true →
  ∃ σ', run_events es σ = (Ok tt, σ') ∧
        helpers_consistent σ' ∧
        dom (_instances σ') = events_activated es ws.
Proof.
  induction es as [|[[w|w]|w|wins docs] es IH]; intros σ ws Hc Hdom Hp;
    simpl in *.
  - by exists σ.
  - apply andb_prop in Hp as [_ Hp].
    destruct (activate_consistent σ w Hc) as (σ1 & Hrun & Hc1 & Hi).
    destruct (IH σ1 ({[w]} ∪ ws) Hc1) as (σ' & Hrun' & Hc' & Hdom'); [|done|].
    { by rewrite Hi, dom_insert_L, Hdom. }
    exists σ'. by rewrite (run_bind_ok _ _ _ _ _ Hrun).
  - apply andb_prop in Hp as [Hin%bool_decide_eq_true Hp].
    rewrite <- Hdom in Hin.
    destruct (deactivate_consistent σ w Hc Hin) as (σ1 & Hrun & Hc1 & Hi).
    destruct (IH σ1 (ws ∖ {[w]}) Hc1) as (σ' & Hrun' & Hc' & Hdom'); [|done|].
    { by rewrite Hi, dom_delete_L, Hdom. }
    exists σ'. by rewrite (run_bind_ok _ _ _ _ _ Hrun).
  - apply andb_prop in Hp as [Hin%bool_decide_eq_true Hp].
    rewrite <- Hdom in Hin.
    destruct (update_ui_consistent σ w Hc Hin) as (σ1 & Hrun & Hh & Hi).
    destruct (IH σ1 ws) as (σ' & Hrun' & Hc' & Hdom'); [| |done|].
    { by apply (helpers_consistent_ext σ). }
    { by rewrite Hi. }
    exists σ'. by rewrite (run_bind_ok _ _ _ _ _ Hrun).
  - destruct (IH (set_documents (λ _, docs) (set_windows (λ _, wins) σ)) ws)
      as (σ' & Hrun' & Hc' & Hdom'); [|done|done|].
    { by apply (helpers_consistent_ext σ). }
    by exists σ'.
Qed.

(** While the host keeps to the contract (it activates a window that is not
    activated, and deactivates or updates one that is), no call of
    [activate], [deactivate] or [update_ui] raises, whatever the host does to
    its windows and documents in between, and the keys of the dictionary are
    the activated windows. *)
Theorem host_calls_never_raise σ es :
  events_well_paired es ∅ = true →
  ∃ σ', (Plugin.__init__;; run_events es) σ = (Ok tt, σ') ∧
        dom (_instances σ') = events_activated es ∅.
Proof.
  intros Hp.
  assert (Plugin.__init__ σ = (Ok tt, set_instances (λ _, ∅) σ)) as Hinit.
  { unfold Plugin.__init__.
    by do 2 (erewrite run_bind_ok; [|apply self_log_silent]). }
  destruct (run_events_tracks es (set_instances (λ _, ∅) σ) ∅)
    as (σ' & Hrun & Hc & Hdom); [done|done|done|].
  exists σ'. by rewrite (run_bind_ok _ _ _ _ _ Hinit).
Qed.

(** ** deactivate of the helper, continued *)

(** [deactivate] of a helper removes its own menu and nothing else: every
    other action group and every UI definition merged under another id stays
    in the window's manager, the window keeps its document and view, and the
    other windows, the documents, the action group objects, the other helpers
    and the dictionary are as before. *)
Theorem helper_deactivate_frame σ self p w u g :
  helper_of σ self = live_helper w p u g →
  let σ' := (Helper.deactivate self σ).2 in
  (∀ g', g' ≠ g →
     g' ∈ mgr_action_groups (win_ui_manager (window_of σ' w)) ↔
     g' ∈ mgr_action_groups (win_ui_manager (window_of σ w))) ∧
  (∀ e, e.1 ≠ u →
     e ∈ mgr_merged (win_ui_manager (window_of σ' w)) ↔
     e ∈ mgr_merged (win_ui_manager (window_of σ w))) ∧
  win_active_document (window_of σ' w) = win_active_document (window_of σ w) ∧
  win_active_view (window_of σ' w) = win_active_view (window_of σ w) ∧
  (∀ w', w' ≠ w → window_of σ' w' = window_of σ w') ∧
  (∀ h, h ≠ self → helper_of σ' h = helper_of σ h) ∧
  documents σ' = documents σ ∧ action_groups σ' = action_groups σ ∧
  _instances σ' = _instances σ.
Proof.
  intros H. rewrite (helper_deactivate_run _ _ _ _ _ _ H). simpl.
  py_frame. simpl. repeat split; try done.
  - by intros [_ ?]%list_elem_of_filter.
  - intros Hin. by apply list_elem_of_filter.
  - by intros [_ ?]%list_elem_of_filter.
  - intros Hin. by apply list_elem_of_filter.
  - intros w' Hne. unfold window_of. simpl. by rewrite lookup_insert_ne.
  - intros h Hne. by rewrite helper_of_set_helpers_ne.
Qed.

(** ** From activate to the menu callback *)

(** The helper that [activate] makes for a window highlights what is
    selected: when the window has an active document, the callback of the new
    helper returns, and the search text of the document is the text between
    its selection bounds, or the empty string when nothing is selected; the
    search flags are exactly [SEARCH_CASE_SENSITIVE], whatever they were. *)
Theorem activate_then_highlight window action d σ :
  win_active_document (window_of σ window) = Some d →
  ∃ σ', (Plugin.activate window;;
         Helper._highlight_selection (fresh (dom (helpers σ))) action) σ
          = (Ok tt, σ') ∧
        doc_search_text (document_of σ' d)
          = (if doc_get_has_selection (document_of σ d)
             then doc_selected_text (document_of σ d) else "") ∧
        doc_search_flags (document_of σ' d) = SEARCH_CASE_SENSITIVE.
Proof.
  intros Hd.
  rewrite (run_bind_ok _ _ _ _ _ (plugin_activate_run σ window)).
  set (h := fresh (dom (helpers σ))).
  assert (∀ d', document_of
                  (set_instances <[window := h]>
                     (constructed h the_plugin window σ)) d'
                = document_of σ d') as Hdoc.
  { intros d'. unfold document_of. simpl. by rewrite documents_constructed. }
  eexists. split.
  - eapply highlight_selection_run; py_frame.
    + by rewrite helper_of_constructed.
    + by rewrite helper_of_constructed.
    + by rewrite window_of_constructed_eq.
  - rewrite document_of_set_documents_eq, Hdoc. simpl.
    by destruct (doc_get_has_selection (document_of σ d)).
Qed.

(** ** The further properties at the example stores *)

Lemma plugin_update_ui_unknown_window_witness :
  Plugin.update_ui 5 empty_store = (Raise KeyError, empty_store).
Proof. apply plugin_update_ui_unknown_window. reflexivity. Defined.


Lemma deactivated_helper_raises_witness :
  Helper.deactivate 0 example_store_released
    = (Raise AttributeError, example_store_released) ∧
  Helper.update_ui 0 5 example_store_released
    = (Raise AttributeError, example_store_released) ∧
  Helper._highlight_selection 0 (menu_action 0) example_store_released
    = (Raise AttributeError, example_store_released) ∧
  Helper._get_text_selection 0 example_store_released
    = (Raise AttributeError, example_store_released).
Proof.
  apply (deactivated_helper_raises 0 5 (menu_action 0)
           example_store_no_document example_store_released).
  vm_compute. reflexivity.
Defined.

Lemma plugin_deactivate_twice_witness :
  let σ' := (Plugin.deactivate 5 example_store_no_document).2 in
  _instances σ' !! 5 = None ∧
  Plugin.deactivate 5 σ' = (Raise KeyError, σ') ∧
  Plugin.update_ui 5 σ' = (Raise KeyError, σ').
Proof.
  apply (plugin_deactivate_twice 5 example_store_no_document).
  vm_compute. reflexivity.
Defined.

Lemma activate_deactivate_restores_menu_witness :
  ∃ σ', (Plugin.activate 5;; Plugin.deactivate 5) (example_host 2)
          = (Ok tt, σ') ∧
        mgr_action_groups (win_ui_manager (window_of σ' 5))
          = mgr_action_groups (win_ui_manager (window_of (example_host 2) 5)) ∧
        mgr_merged (win_ui_manager (window_of σ' 5))
          = mgr_merged (win_ui_manager (window_of (example_host 2) 5)) ∧
        win_active_document (window_of σ' 5)
          = win_active_document (window_of (example_host 2) 5) ∧
        win_active_view (window_of σ' 5)
          = win_active_view (window_of (example_host 2) 5) ∧
        (∀ w, w ≠ 5 → window_of σ' w = window_of (example_host 2) w) ∧
        documents σ' = documents (example_host 2) ∧
        _instances σ' = delete 5 (_instances (example_host 2)).
Proof.
  apply (activate_deactivate_restores_menu 5 (example_host 2)).
  split; intros x Hx; vm_compute in Hx; by apply elem_of_nil in Hx.
Defined.

Lemma activate_twice_leaves_menu_witness :
  ∃ σ', (Plugin.activate 5;; Plugin.deactivate 5) example_store_no_document
          = (Ok tt, σ') ∧
        _instances σ' !! 5 = None ∧
        helper_of σ' 0 = live_helper 5 the_plugin 1 0 ∧
        0 ∈ mgr_action_groups (win_ui_manager (window_of σ' 5)) ∧
        (1, Helper.ui_str) ∈ mgr_merged (win_ui_manager (window_of σ' 5)).
Proof.
  apply (activate_twice_leaves_menu 5 example_store_no_document 0 1 0).
  - vm_compute. reflexivity.
  - apply elem_of_dom. vm_compute. by eexists.
  - vm_compute. reflexivity.
  - apply elem_of_dom. vm_compute. by eexists.
  - vm_compute. apply list_elem_of_here.
  - vm_compute. apply list_elem_of_here.
  - vm_compute. lia.
Defined.

Lemma host_calls_never_raise_witness :
  let es :=
    [Call (Activate 5); HostChange (windows (example_host 2)) ∅;
     UpdateUi 5; Call (Activate 6); Call (Deactivate 5)] in
  ∃ σ', (Plugin.__init__;; run_events es) empty_store = (Ok tt, σ') ∧
        dom (_instances σ') = events_activated es ∅.
Proof.
  apply (host_calls_never_raise empty_store). vm_compute. reflexivity.
Defined.

Lemma helper_deactivate_frame_witness :
  let σ := example_store 2 in
  let σ' := (Helper.deactivate 0 σ).2 in
  (∀ g', g' ≠ 0 →
     g' ∈ mgr_action_groups (win_ui_manager (window_of σ' 5)) ↔
     g' ∈ mgr_action_groups (win_ui_manager (window_of σ 5))) ∧
  (∀ e, e.1 ≠ 1 →
     e ∈ mgr_merged (win_ui_manager (window_of σ' 5)) ↔
     e ∈ mgr_merged (win_ui_manager (window_of σ 5))) ∧
  win_active_document (window_of σ' 5) = win_active_document (window_of σ 5) ∧
  win_active_view (window_of σ' 5) = win_active_view (window_of σ 5) ∧
  (∀ w', w' ≠ 5 → window_of σ' w' = window_of σ w') ∧
  (∀ h, h ≠ 0 → helper_of σ' h = helper_of σ h) ∧
  documents σ' = documents σ ∧ action_groups σ' = action_groups σ ∧
  _instances σ' = _instances σ.
Proof.
  apply (helper_deactivate_frame (example_store 2) 0 the_plugin 5 1 0).
  vm_compute. reflexivity.
Defined.

Lemma activate_then_highlight_witness :
  ∃ σ', (Plugin.activate 5;;
         Helper._highlight_selection
           (fresh (dom (helpers (example_host 2)))) (menu_action 0))
          (example_host 2)
          = (Ok tt, σ') ∧
        doc_search_text (document_of σ' 7)
          = (if doc_get_has_selection (document_of (example_host 2) 7)
             then doc_selected_text (document_of (example_host 2) 7)
             else "") ∧
        doc_search_flags (document_of σ' 7) = SEARCH_CASE_SENSITIVE.
Proof.
  apply (activate_then_highlight 5 (menu_action 0) 7 (example_host 2)).
  vm_compute. reflexivity.
Defined.
